(** * node-school-kr: the School class of school.js

    A shallow embedding of [src/school.js] (class [School]): the
    constructor, [monthFormat], [createUrl], [getTargetURL], [getMeal] and
    [getCalendar], followed by the properties of the identity / URL
    construction layer.

    ** Conventions of the embedding

    - JavaScript values are the inductive [value] below: [undefined],
      [null], booleans, integer-valued numbers (a [Z], printed in plain
      decimal as [Number.prototype.toString] does for integers below
      10^21), strings, symbols (identified by their description) and plain
      objects with string-keyed own data properties (an association list;
      the first binding of a key is the property).  Functions, arrays,
      fractional numbers, [NaN] and the infinities as inputs are outside the
      universe; in particular no property of an object is callable.
    - A string is a sequence of code units, each a Rocq [ascii] (code units
      below 256).
    - [throw] is the [Err] constructor of [result]; in the two [async]
      methods it stands for the rejection of the returned promise.  The six
      messages of the source are the first six constructors of [error]; a
      [TypeError] raised by the language itself is the seventh.
    - The object [this] is a record whose fields are [option]s: [None] is a
      field no assignment has reached yet; reading it yields [undefined].
    - [data/data.js], [src/meal.js] and [src/calendar.js] are other modules
      of the package: the [DATA] object is a parameter ([Data]), and the
      two fetchers are opaque collaborators, so that a call of [getData]
      is recorded as a [Delegation] (which fetcher, which URL, which
      default value).
    - The conversion of a string to a number, which the range test
      [month < 1 || month > 12] applies to a string month, is a parameter
      ([Host]): only its comparison with 1 and with 12 is observed. *)

From Stdlib Require Import ZArith Bool List Lia.
From Stdlib Require Import Strings.Ascii Strings.String Numbers.DecimalString.
From Stdlib Require Import Numbers.DecimalPos Numbers.DecimalZ.
Import ListNotations.

Local Open Scope string_scope.
Local Open Scope Z_scope.

Set Warnings "-register-all".

(** ** Values *)

Inductive value : Type :=
| VUndefined
| VNull
| VBool (b : bool)
| VNum (n : Z)
| VStr (s : string)
| VSym (description : string)
| VObj (props : list (string * value)).

(** Errors, by the [throw] statement that raises them. *)
Inductive error : Type :=
| AlreadyInitialized (schoolCode : string) (* line 51, message naming the code *)
| MissingData            (* line 60: type, region and school code are required *)
| UnknownKind            (* line 101: unknown kind *)
| NotInitialized         (* lines 112, 169, 207: instance not initialized *)
| IncompleteDate         (* lines 130, 153, 191: give both year and month *)
| MonthRange             (* lines 157, 195: month must be within 1~12 *)
| TypeError.             (* raised by the language, not by the source *)

(** The taxonomy of the specification over the errors of the source. *)
Inductive error_class : Type :=
| ConfigurationError | UnknownKindError | NotInitializedError
| IncompleteDateError | MonthRangeError | RuntimeTypeError.

Definition classify (e : error) : error_class :=
  match e with
  | AlreadyInitialized _ => ConfigurationError
  | MissingData => ConfigurationError
  | UnknownKind => UnknownKindError
  | NotInitialized => NotInitializedError
  | IncompleteDate => IncompleteDateError
  | MonthRange => MonthRangeError
  | TypeError => RuntimeTypeError
  end.

Inductive result (A : Type) : Type :=
| Ok (a : A)
| Err (e : error).

Arguments Ok {A} a.
Arguments Err {A} e.

Definition bind {A B : Type} (r : result A) (k : A -> result B) : result B :=
  match r with
  | Ok a => k a
  | Err e => Err e
  end.

Notation "x <- r ;; k" := (bind r (fun x => k))
  (at level 61, r at next level, right associativity).

(** ** The operations of the language the source relies on *)

(** ToBoolean: [if (v)], [v && w], [v || w]. *)
Definition truthy (v : value) : bool :=
  match v with
  | VUndefined | VNull => false
  | VBool b => b
  | VNum n => negb (n =? 0)
  | VStr s => negb (s =? "")%string
  | VSym _ | VObj _ => true
  end.

(** [v || w] *)
Definition or_else (v w : value) : value := if truthy v then v else w.

Definition typeof (v : value) : string :=
  match v with
  | VUndefined => "undefined"
  | VNull => "object"
  | VBool _ => "boolean"
  | VNum _ => "number"
  | VStr _ => "string"
  | VSym _ => "symbol"
  | VObj _ => "object"
  end.

(** [v === undefined] *)
Definition is_undefined (v : value) : bool :=
  match v with
  | VUndefined => true
  | _ => false
  end.

Fixpoint own_property (props : list (string * value)) (k : string) : option value :=
  match props with
  | [] => None
  | (k', v) :: rest => if (k' =? k)%string then Some v else own_property rest k
  end.

Definition has_own (props : list (string * value)) (k : string) : bool :=
  match own_property props k with
  | Some _ => true
  | None => false
  end.

(** [o.k] for a name [k] that no built-in prototype defines ([year],
    [yaer], [month], [default]): the own property, or [undefined]; reading
    a property of [undefined] or [null] raises a TypeError. *)
Definition get_member (o : value) (k : string) : result value :=
  match o with
  | VUndefined | VNull => Err TypeError
  | VObj props =>
      match own_property props k with
      | Some v => Ok v
      | None => Ok VUndefined
      end
  | VBool _ | VNum _ | VStr _ | VSym _ => Ok VUndefined
  end.

(** The decimal string of an integer, which is the string of a number up
    to 10^21; from there on [Number.prototype.toString] switches to the
    exponent form, which this does not follow.  The properties below use
    of the digits only what holds of both forms: the string of a number
    from 100 upwards is longer than two code units, and distinct numbers
    have distinct strings. *)
Definition number_to_string (n : Z) : string :=
  NilZero.string_of_int (Z.to_int n).

Definition bool_to_string (b : bool) : string :=
  if b then "true" else "false".

(** An object converts to a primitive through [toString] and [valueOf].
    The inherited [valueOf] returns the object itself and the inherited
    [toString] returns "[object Object]"; an own [toString] is not callable
    (the universe has no functions) and is skipped, which leaves no
    primitive and raises a TypeError, whatever the hint is. *)
Definition object_to_primitive (props : list (string * value)) : result string :=
  if has_own props "toString" then Err TypeError else Ok "[object Object]".

(** ToString, as applied by a template literal and by a computed
    property key. *)
Definition to_string (v : value) : result string :=
  match v with
  | VUndefined => Ok "undefined"
  | VNull => Ok "null"
  | VBool b => Ok (bool_to_string b)
  | VNum n => Ok (number_to_string n)
  | VStr s => Ok s
  | VSym _ => Err TypeError
  | VObj props => object_to_primitive props
  end.

(** The method call [v.toString()].  For an object this is the call on
    a plain data object: an own [toString] is not callable, and without
    one the inherited method answers "[object Object]".  An object with a
    [toString] method of its own, which may return any value, and an
    object without a prototype are outside the universe: what is stated
    of [monthFormat] for every result is stated for primitive arguments. *)
Definition call_toString (v : value) : result string :=
  match v with
  | VUndefined | VNull => Err TypeError
  | VBool b => Ok (bool_to_string b)
  | VNum n => Ok (number_to_string n)
  | VStr s => Ok s
  | VSym d => Ok ("Symbol(" ++ d ++ ")")
  | VObj props => object_to_primitive props
  end.

(** [String.prototype.toLowerCase] on code units below 256: the letters
    A-Z and the capital letters of the Latin-1 supplement (0xC0-0xDE but
    the multiplication sign 0xD7) move up by 32. *)
Definition lower_char (c : ascii) : ascii :=
  let n := nat_of_ascii c in
  if ((65 <=? n)%nat && (n <=? 90)%nat)
     || ((192 <=? n)%nat && (n <=? 222)%nat && negb (n =? 215)%nat)
  then ascii_of_nat (n + 32)
  else c.

Fixpoint lower (s : string) : string :=
  match s with
  | EmptyString => EmptyString
  | String c rest => String (lower_char c) (lower rest)
  end.

(** The method call [v.toLowerCase()]: only a string has the method. *)
Definition call_toLowerCase (v : value) : result string :=
  match v with
  | VStr s => Ok (lower s)
  | _ => Err TypeError
  end.

(** What is observed of the conversion of a string to a number. *)
Record Host : Type := {
  string_below_1 : string -> bool;   (* Number(s) < 1 *)
  string_above_12 : string -> bool   (* Number(s) > 12 *)
}.

Section Comparison.

Variable host : Host.

(** [month < 1 || month > 12].  [undefined] and "[object Object]"
    convert to NaN, for which both comparisons are false; [null] and
    [false] convert to 0 and [true] to 1; a symbol does not convert. *)
Definition out_of_range (month : value) : result bool :=
  match month with
  | VUndefined => Ok false
  | VNull => Ok true
  | VBool b => Ok (negb b)
  | VNum n => Ok ((n <? 1) || (12 <? n))
  | VStr s => Ok (string_below_1 host s || string_above_12 host s)
  | VSym _ => Err TypeError
  | VObj props => _ <- object_to_primitive props ;; Ok false
  end.

End Comparison.

(** ** [monthFormat] (lines 69-84) *)

Definition monthFormat (month : value) : result string :=
  month <- call_toString month ;;
  if (2 <? String.length month)%nat then Ok ""
  else if (month =? "")%string || (String.length month =? 2)%nat then Ok month
  else Ok ("0" ++ month).

(** ** The [DATA] object of [data/data.js] *)

(** A property key: a string or a symbol. *)
Inductive key : Type :=
| KStr (s : string)
| KSym (description : string).

Definition key_eqb (k k' : key) : bool :=
  match k, k' with
  | KStr s, KStr s' => (s =? s')%string
  | KSym d, KSym d' => (d =? d')%string
  | _, _ => false
  end.

(** ToPropertyKey: a symbol is a key as it is, any other value through
    ToString. *)
Definition to_property_key (v : value) : result key :=
  match v with
  | VSym d => Ok (KSym d)
  | _ => s <- to_string v ;; Ok (KStr s)
  end.

(** A catalog ([DATA.EDUTYPE], [DATA.REGION]): the properties of an object
    keyed by the symbols of [TYPE] and [REGION].  The list holds the own
    properties.  A symbol key that is not listed reads as [undefined], as
    in the language ([Object.prototype] has no symbol-keyed property); a
    string key that names a member of [Object.prototype] ("toString",
    "constructor", ...) would read as that member, a function, which the
    universe does not have: what is stated of keys that are not members
    is stated for symbols. *)
Definition catalog : Type := list (key * value).

Fixpoint catalog_get (c : catalog) (k : key) : value :=
  match c with
  | [] => VUndefined
  | (k', v) :: rest => if key_eqb k' k then v else catalog_get rest k
  end.

(** [c[v]] *)
Definition index (c : catalog) (v : value) : result value :=
  k <- to_property_key v ;; Ok (catalog_get c k).

Record Data : Type := {
  mealUrl : string;       (* DATA.mealUrl, the portal path of the meal page *)
  calendarUrl : string;   (* DATA.calendarUrl, the path of the calendar page *)
  EDUTYPE : catalog;      (* DATA.EDUTYPE *)
  REGION : catalog        (* DATA.REGION *)
}.

(** ** Instances of [School] *)

(** [new Meal()] and [new Calendar()]. *)
Inductive Fetcher : Type := MealFetcher | CalendarFetcher.

Record School : Type := {
  _DATA : option Data;
  _mealUrl : option value;
  _calendarUrl : option value;
  _meal : option Fetcher;
  _calendar : option Fetcher;
  _eduType : option value;
  _region : option value;
  _schoolCode : option value;
  _initialized : option value
}.

(** The object [new] hands to the constructor. *)
Definition fresh : School :=
  {| _DATA := None; _mealUrl := None; _calendarUrl := None; _meal := None;
     _calendar := None; _eduType := None; _region := None;
     _schoolCode := None; _initialized := None |}.

(** Reading a field: [undefined] until it is assigned. *)
Definition read (field : option value) : value :=
  match field with
  | Some v => v
  | None => VUndefined
  end.

(** Lines 44-48: the five assignments that precede the checks. *)
Definition assign_collaborators (DATA : Data) (this : School) : School :=
  {| _DATA := Some DATA;
     _mealUrl := Some (VStr (mealUrl DATA));
     _calendarUrl := Some (VStr (calendarUrl DATA));
     _meal := Some MealFetcher;
     _calendar := Some CalendarFetcher;
     _eduType := _eduType this; _region := _region this;
     _schoolCode := _schoolCode this; _initialized := _initialized this |}.

Definition assign_eduType (v : value) (this : School) : School :=
  {| _DATA := _DATA this; _mealUrl := _mealUrl this;
     _calendarUrl := _calendarUrl this; _meal := _meal this;
     _calendar := _calendar this;
     _eduType := Some v; _region := _region this;
     _schoolCode := _schoolCode this; _initialized := _initialized this |}.

Definition assign_region (v : value) (this : School) : School :=
  {| _DATA := _DATA this; _mealUrl := _mealUrl this;
     _calendarUrl := _calendarUrl this; _meal := _meal this;
     _calendar := _calendar this;
     _eduType := _eduType this; _region := Some v;
     _schoolCode := _schoolCode this; _initialized := _initialized this |}.

Definition assign_schoolCode (v : value) (this : School) : School :=
  {| _DATA := _DATA this; _mealUrl := _mealUrl this;
     _calendarUrl := _calendarUrl this; _meal := _meal this;
     _calendar := _calendar this;
     _eduType := _eduType this; _region := _region this;
     _schoolCode := Some v; _initialized := _initialized this |}.

Definition assign_initialized (v : value) (this : School) : School :=
  {| _DATA := _DATA this; _mealUrl := _mealUrl this;
     _calendarUrl := _calendarUrl this; _meal := _meal this;
     _calendar := _calendar this;
     _eduType := _eduType this; _region := _region this;
     _schoolCode := _schoolCode this; _initialized := Some v |}.

(** ** The constructor (lines 43-62)

    The body of the constructor, run on the object [this]: the object as
    the body leaves it, and whether the body completed or threw.  The
    catalogs are read through [this._DATA], which line 44 has just set to
    [DATA]. *)
Definition constructor (DATA : Data) (this : School)
    (type region schoolCode : value) : School * result unit :=
  let this := assign_collaborators DATA this in
  if truthy (read (_initialized this)) then
    (this, code <- to_string (read (_schoolCode this)) ;;
           Err (AlreadyInitialized code))
  else if truthy type && truthy region && truthy schoolCode then
    match index (EDUTYPE DATA) type with
    | Err e => (this, Err e)
    | Ok eduType =>
        let this := assign_eduType eduType this in
        match index (REGION DATA) region with
        | Err e => (this, Err e)
        | Ok host =>
            let this := assign_region host this in
            let this := assign_schoolCode schoolCode this in
            let this := assign_initialized (VBool true) this in
            (this, Ok tt)
        end
    end
  else (this, Err MissingData).

(** [new School(type, region, schoolCode)]: the constructor runs on a fresh
    object; the expression yields that object when the body completes and
    nothing but the error when it throws. *)
Definition new_School (DATA : Data) (type region schoolCode : value)
    : result School :=
  let (this, outcome) := constructor DATA fresh type region schoolCode in
  _ <- outcome ;; Ok this.

(** A finalized identity: [this._initialized] is truthy. *)
Definition finalized (this : School) : bool :=
  truthy (read (_initialized this)).

(** ** [createUrl] (lines 91-114) *)

Definition createUrl (this : School) (type year month : value)
    : result string :=
  if truthy (read (_initialized this)) then
    typeString <- call_toLowerCase type ;;
    typeUrl <- (if (typeString =? "meal")%string then
                  Ok (read (_mealUrl this))
                else if (typeString =? "calendar")%string then
                  Ok (read (_calendarUrl this))
                else Err UnknownKind) ;;
    region <- to_string (read (_region this)) ;;
    typeUrl <- to_string typeUrl ;;
    let targetUrl := "https://" ++ region ++ "/" ++ typeUrl ++ "?" in
    schoolCode <- to_string (read (_schoolCode this)) ;;
    let targetUrl := targetUrl ++ "schulCode=" ++ schoolCode ++ "&" in
    eduType <- to_string (read (_eduType this)) ;;
    let targetUrl := targetUrl ++ "schulCrseScCode=" ++ eduType ++ "&" in
    eduType <- to_string (read (_eduType this)) ;;
    let targetUrl := targetUrl ++ "schulKndScCode=0" ++ eduType ++ "&" in
    ay <- to_string (or_else year (VStr "")) ;;
    let targetUrl := targetUrl ++ "ay=" ++ ay ++ "&" in
    mm <- monthFormat (or_else month (VStr "")) ;;
    let targetUrl := targetUrl ++ "mm=" ++ mm ++ "&" in
    Ok targetUrl
  else Err NotInitialized.

(** The date test of lines 125-128, 148-151 and 186-189:
    [(year !== undefined && month !== undefined) ||
     (year === undefined && month === undefined)]. *)
Definition both_or_neither (year month : value) : bool :=
  (negb (is_undefined year) && negb (is_undefined month))
  || (is_undefined year && is_undefined month).

(** ** [getTargetURL] (lines 123-133) *)

Definition getTargetURL (this : School) (type year month : value)
    : result string :=
  if negb (both_or_neither year month) then Err IncompleteDate
  else createUrl this type year month.

(** ** [getMeal] and [getCalendar] (lines 141-171 and 179-209) *)

(** A call [fetcher.getData(url, defaultValue)]. *)
Record Delegation : Type := {
  fetcher : Fetcher;
  url : string;
  defaultValue : value
}.

(** The callee [this._meal.getData]: a TypeError when the field is unset. *)
Definition callee (field : option Fetcher) : result Fetcher :=
  match field with
  | Some f => Ok f
  | None => Err TypeError
  end.

Section Queries.

Variable host : Host.

Definition getMeal (this : School) (year month : value)
    : result Delegation :=
  let option := VObj [] in
  args <- (if (typeof year =? "object")%string then
             let option := year in
             year <- get_member option "year" ;;
             month <- get_member option "month" ;;
             Ok (option, year, month)
           else if negb (both_or_neither year month) then Err IncompleteDate
           else Ok (option, year, month)) ;;
  let '(option, year, month) := args in
  outside <- out_of_range host month ;;
  if outside then Err MonthRange
  else if truthy (read (_initialized this)) then
    let option := or_else option (VObj []) in
    default <- get_member option "default" ;;
    let defaultMealValue := or_else default (VStr "") in
    meal <- callee (_meal this) ;;
    target <- createUrl this (VStr "meal") year month ;;
    Ok {| fetcher := meal; url := target; defaultValue := defaultMealValue |}
  else Err NotInitialized.

Definition getCalendar (this : School) (year month : value)
    : result Delegation :=
  let option := VObj [] in
  args <- (if (typeof year =? "object")%string then
             let option := year in
             year <- get_member option "yaer" ;;
             month <- get_member option "month" ;;
             Ok (option, year, month)
           else if negb (both_or_neither year month) then Err IncompleteDate
           else Ok (option, year, month)) ;;
  let '(option, year, month) := args in
  outside <- out_of_range host month ;;
  if outside then Err MonthRange
  else if truthy (read (_initialized this)) then
    let option := or_else option (VObj []) in
    default <- get_member option "default" ;;
    let defaultCalendarValue := or_else default (VStr "") in
    calendar <- callee (_calendar this) ;;
    target <- createUrl this (VStr "calendar") year month ;;
    Ok {| fetcher := calendar; url := target;
          defaultValue := defaultCalendarValue |}
  else Err NotInitialized.

End Queries.

(** The instance the constructor leaves for a type resolved to the code
    [T], a region resolved to the host [R] and the school code [C]. *)
Definition identity (DATA : Data) (T R C : string) : School :=
  {| _DATA := Some DATA;
     _mealUrl := Some (VStr (mealUrl DATA));
     _calendarUrl := Some (VStr (calendarUrl DATA));
     _meal := Some MealFetcher;
     _calendar := Some CalendarFetcher;
     _eduType := Some (VStr T);
     _region := Some (VStr R);
     _schoolCode := Some (VStr C);
     _initialized := Some (VBool true) |}.

(** ** The statements of the specification *)

(** The URL of section 4.3, from its six variable parts. *)
Definition url_shape (R kindPath C T ay mm : string) : string :=
  "https://" ++ R ++ "/" ++ kindPath ++ "?schulCode=" ++ C
  ++ "&schulCrseScCode=" ++ T ++ "&schulKndScCode=0" ++ T
  ++ "&ay=" ++ ay ++ "&mm=" ++ mm ++ "&".

(** The year and month fields as the specification words them: empty only
    for an absent argument. *)
Definition year_field_when_absent (year : value) : result string :=
  if is_undefined year then Ok "" else to_string year.

Definition month_field_when_absent (month : value) : result string :=
  if is_undefined month then Ok "" else monthFormat month.

(** The year and month fields as [createUrl] computes them: empty for
    every falsy argument. *)
Definition year_field (year : value) : result string :=
  if truthy year then to_string year else Ok "".

Definition month_field (month : value) : result string :=
  if truthy month then monthFormat month else Ok "".

(** Section 4.2 on a string. *)
Definition two_characters (s : string) : string :=
  if (2 <? String.length s)%nat then ""
  else if (String.length s =? 1)%nat then "0" ++ s
  else s.

(** The string [s] has no occurrence of the code unit [c]. *)
Fixpoint free_of (c : ascii) (s : string) : bool :=
  match s with
  | EmptyString => true
  | String c' rest => negb (Ascii.eqb c' c) && free_of c rest
  end.

(** The options object [{year: Y, month: M, default: D}]. *)
Definition options (Y M D : value) : value :=
  VObj [("year", Y); ("month", M); ("default", D)].

(** ** A concrete setting

    A [DATA] object with the high-school type and the Seoul office, a
    conversion of strings that places every string inside the range, and
    the school the constructor builds from them. *)

Definition sampleData : Data :=
  {| mealUrl := "sts_sci_md00_001.do";
     calendarUrl := "sts_sci_sf01_001.do";
     EDUTYPE := [(KSym "HIGH", VStr "4")];
     REGION := [(KSym "SEOUL", VStr "stu.sen.go.kr")] |}.

Definition sampleHost : Host :=
  {| string_below_1 := fun _ => false; string_above_12 := fun _ => false |}.

Definition sampleSchool : School :=
  identity sampleData "4" "stu.sen.go.kr" "B100000465".

(** ** Proof automation *)

Ltac break_goal :=
  match goal with
  | |- context [match ?x with _ => _ end] => destruct x eqn:?
  end.

Ltac break_hyp :=
  match goal with
  | H : context [match ?x with _ => _ end] |- _ => destruct x eqn:?
  end.

(** * Properties *)

Example number_to_string_examples :
  number_to_string 2024 = "2024" /\ number_to_string 0 = "0" /\
  number_to_string (-7) = "-7".
Proof. repeat split. Qed.

Example sampleSchool_constructed :
  new_School sampleData (VSym "HIGH") (VSym "SEOUL") (VStr "B100000465")
  = Ok sampleSchool.
Proof. reflexivity. Qed.

(** ** Errors of the conversions *)

Lemma object_to_primitive_error props e :
  object_to_primitive props = Err e -> e = TypeError.
Proof.
  unfold object_to_primitive. destruct (has_own props "toString"); congruence.
Qed.

Lemma to_string_error v e : to_string v = Err e -> e = TypeError.
Proof.
  destruct v; simpl; try congruence. apply object_to_primitive_error.
Qed.

Lemma call_toString_error v e : call_toString v = Err e -> e = TypeError.
Proof.
  destruct v; simpl; try congruence. apply object_to_primitive_error.
Qed.

Lemma call_toLowerCase_error v e : call_toLowerCase v = Err e -> e = TypeError.
Proof. destruct v; simpl; congruence. Qed.

Lemma monthFormat_error v e : monthFormat v = Err e -> e = TypeError.
Proof.
  unfold monthFormat. destruct (call_toString v) eqn:E; simpl.
  - repeat break_goal; discriminate.
  - intros [= <-]. eapply call_toString_error; eassumption.
Qed.

Lemma out_of_range_error host v e :
  out_of_range host v = Err e -> e = TypeError.
Proof.
  destruct v; simpl; try congruence.
  destruct (object_to_primitive props) eqn:E; simpl; try congruence.
  intros [= <-]. eapply object_to_primitive_error; eassumption.
Qed.

Lemma get_member_error o k e : get_member o k = Err e -> e = TypeError.
Proof. destruct o; simpl; try congruence. break_goal; congruence. Qed.

Lemma index_error c v e : index c v = Err e -> e = TypeError.
Proof.
  unfold index, to_property_key.
  destruct v; simpl; try congruence.
  destruct (object_to_primitive props) eqn:E; simpl; try congruence.
  intros [= <-]. eapply object_to_primitive_error; eassumption.
Qed.

Ltac type_errors :=
  repeat match goal with
  | H : to_string _ = Err _ |- _ => apply to_string_error in H
  | H : call_toString _ = Err _ |- _ => apply call_toString_error in H
  | H : call_toLowerCase _ = Err _ |- _ => apply call_toLowerCase_error in H
  | H : monthFormat _ = Err _ |- _ => apply monthFormat_error in H
  | H : out_of_range _ _ = Err _ |- _ => apply out_of_range_error in H
  | H : get_member _ _ = Err _ |- _ => apply get_member_error in H
  | H : index _ _ = Err _ |- _ => apply index_error in H
  end.

(** A finalized instance never reports [NotInitialized] from [createUrl]:
    its failures are the unknown kind and the TypeErrors of the
    conversions. *)
Lemma createUrl_finalized_error this type year month e :
  finalized this = true ->
  createUrl this type year month = Err e ->
  e = UnknownKind \/ e = TypeError.
Proof.
  unfold finalized, createUrl. intros ->. unfold bind.
  repeat break_goal; intros [= <-]; type_errors; subst; auto.
  repeat break_hyp; try discriminate. left; congruence.
Qed.

Lemma createUrl_not_finalized this type year month :
  finalized this = false ->
  createUrl this type year month = Err NotInitialized.
Proof. unfold finalized, createUrl. now intros ->. Qed.

Lemma callee_error field e : callee field = Err e -> e = TypeError.
Proof. destruct field; simpl; congruence. Qed.

(** The date validation of [getMeal] and [getCalendar] does not depend on
    the instance; on a finalized instance nothing else reports
    [NotInitialized] either. *)
Lemma getMeal_finalized_error host this year month e :
  finalized this = true ->
  getMeal host this year month = Err e -> e <> NotInitialized.
Proof.
  intros F. pose proof F as F'. unfold finalized in F'.
  unfold getMeal. rewrite F'. unfold bind.
  repeat break_goal; intros [= <-]; type_errors; subst; try discriminate.
  - match goal with
    | H : createUrl _ _ _ _ = Err _ |- _ =>
        destruct (createUrl_finalized_error _ _ _ _ _ F H); subst; discriminate
    end.
  - match goal with
    | H : callee _ = Err _ |- _ => apply callee_error in H; subst; discriminate
    end.
  - repeat break_hyp; try discriminate; type_errors; congruence.
Qed.

Lemma getCalendar_finalized_error host this year month e :
  finalized this = true ->
  getCalendar host this year month = Err e -> e <> NotInitialized.
Proof.
  intros F. pose proof F as F'. unfold finalized in F'.
  unfold getCalendar. rewrite F'. unfold bind.
  repeat break_goal; intros [= <-]; type_errors; subst; try discriminate.
  - match goal with
    | H : createUrl _ _ _ _ = Err _ |- _ =>
        destruct (createUrl_finalized_error _ _ _ _ _ F H); subst; discriminate
    end.
  - match goal with
    | H : callee _ = Err _ |- _ => apply callee_error in H; subst; discriminate
    end.
  - repeat break_hyp; try discriminate; type_errors; congruence.
Qed.

(** Whatever object the body of the constructor starts from, the object
    it completes on carries [_initialized = true]. *)
Lemma constructor_completes DATA this0 type region schoolCode this :
  constructor DATA this0 type region schoolCode = (this, Ok tt) ->
  _initialized this = Some (VBool true).
Proof.
  unfold constructor. unfold bind.
  repeat break_goal; intros [= <-]; reflexivity.
Qed.

(** ** Month formatting *)

Lemma monthFormat_two_characters month s :
  call_toString month = Ok s -> monthFormat month = Ok (two_characters s).
Proof.
  unfold monthFormat, two_characters. intros ->. simpl.
  destruct s as [|c [|c' [|c'' s']]]; reflexivity.
Qed.

(** C7.  [monthFormat] converts its argument to a string [s] (the call
    [month.toString()]) and, for every argument that has such a string, it
    returns a result: the empty string when [s] is longer than 2, [s]
    itself when [s] is empty or of length 2, and "0" followed by [s]
    otherwise.  In particular [monthFormat(5)] is "05", [monthFormat(12)]
    is "12", [monthFormat("")] is "" and [monthFormat(123)] is "". *)
Theorem monthFormat_spec :
  (forall month s,
      call_toString month = Ok s ->
      exists r,
        monthFormat month = Ok r /\
        ((2 < String.length s)%nat -> r = "") /\
        (s = "" \/ String.length s = 2%nat -> r = s) /\
        (~ (2 < String.length s)%nat ->
         ~ (s = "" \/ String.length s = 2%nat) -> r = "0" ++ s)) /\
  monthFormat (VNum 5) = Ok "05" /\
  monthFormat (VNum 12) = Ok "12" /\
  monthFormat (VStr "") = Ok "" /\
  monthFormat (VNum 123) = Ok "".
Proof.
  split; [ | repeat split ].
  intros month s Hs. exists (two_characters s).
  split; [ now apply monthFormat_two_characters | ].
  unfold two_characters.
  destruct s as [|c [|c' [|c'' s']]]; simpl; repeat split; intros;
    try reflexivity; try lia; try tauto.
  all: match goal with H : _ \/ _ |- _ => destruct H; (discriminate || lia) end.
Qed.

Lemma monthFormat_spec_witness :
  call_toString (VNum 7) = Ok "7" /\
  exists r, monthFormat (VNum 7) = Ok r /\ r = "07".
Proof.
  split; [ reflexivity | ].
  destruct (proj1 monthFormat_spec (VNum 7) "7" eq_refl) as (r & Hr & _ & _ & H1).
  exists r. split; [ exact Hr | ].
  apply H1; simpl; [ lia | intros [H|H]; discriminate ].
Defined.

(** ** The kind of a URL *)

(** C8.  On a finalized identity [createUrl] reads its kind through
    [toLowerCase]: "MEAL" builds what "meal" builds and "CALENDAR" what
    "calendar" builds, two kinds with the same lowercase form build the
    same result, and a kind whose lowercase form is neither "meal" nor
    "calendar" fails with the unknown-kind error. *)
Theorem createUrl_kind_case_insensitive this year month :
  finalized this = true ->
  createUrl this (VStr "MEAL") year month
    = createUrl this (VStr "meal") year month /\
  createUrl this (VStr "CALENDAR") year month
    = createUrl this (VStr "calendar") year month /\
  (forall kind kind',
      lower kind = lower kind' ->
      createUrl this (VStr kind) year month
        = createUrl this (VStr kind') year month) /\
  (forall kind,
      lower kind <> "meal" -> lower kind <> "calendar" ->
      createUrl this (VStr kind) year month = Err UnknownKind /\
      classify UnknownKind = UnknownKindError).
Proof.
  intros F. unfold finalized in F.
  assert (G : forall kind kind',
             lower kind = lower kind' ->
             createUrl this (VStr kind) year month
               = createUrl this (VStr kind') year month).
  { intros kind kind' E. unfold createUrl. simpl. now rewrite E. }
  repeat split; auto.
  unfold createUrl. rewrite F. simpl.
  destruct (String.eqb_spec (lower kind) "meal"); [ contradiction | ].
  destruct (String.eqb_spec (lower kind) "calendar"); [ contradiction | ].
  reflexivity.
Qed.

Lemma createUrl_kind_case_insensitive_witness :
  finalized sampleSchool = true /\
  createUrl sampleSchool (VStr "MEAL") (VNum 2024) (VNum 5)
    = Ok "https://stu.sen.go.kr/sts_sci_md00_001.do?schulCode=B100000465&schulCrseScCode=4&schulKndScCode=04&ay=2024&mm=05&" /\
  createUrl sampleSchool (VStr "unknown") (VNum 2024) (VNum 5)
    = Err UnknownKind.
Proof.
  pose proof (createUrl_kind_case_insensitive sampleSchool (VNum 2024)
                (VNum 5) eq_refl) as (H1 & _ & _ & H4).
  split; [ reflexivity | split ].
  - rewrite H1. reflexivity.
  - apply (H4 "unknown"); discriminate.
Defined.

(** ** Instances built by the constructor *)

(** C10.  An instance that [new School(...)] returns has its
    [_initialized] flag set to [true]; none of [createUrl],
    [getTargetURL], [getMeal] and [getCalendar] reports the
    not-initialized error on it. *)
Theorem constructed_is_finalized DATA type region schoolCode this :
  new_School DATA type region schoolCode = Ok this ->
  _initialized this = Some (VBool true) /\
  finalized this = true /\
  (forall kind year month,
      createUrl this kind year month <> Err NotInitialized /\
      getTargetURL this kind year month <> Err NotInitialized) /\
  (forall host year month,
      getMeal host this year month <> Err NotInitialized /\
      getCalendar host this year month <> Err NotInitialized).
Proof.
  unfold new_School.
  destruct (constructor DATA fresh type region schoolCode) as [this' out] eqn:E.
  destruct out as [[]|e]; simpl; intros [= <-].
  pose proof (constructor_completes _ _ _ _ _ _ E) as I.
  assert (F : finalized this' = true) by (unfold finalized; now rewrite I).
  assert (U : forall kind year month,
             createUrl this' kind year month <> Err NotInitialized).
  { intros kind year month H.
    destruct (createUrl_finalized_error _ _ _ _ _ F H); discriminate. }
  repeat split; auto.
  - unfold getTargetURL. break_goal; [ discriminate | apply U ].
  - intros H. now apply (getMeal_finalized_error _ _ _ _ _ F H).
  - intros H. now apply (getCalendar_finalized_error _ _ _ _ _ F H).
Qed.

Lemma constructed_is_finalized_witness :
  new_School sampleData (VSym "HIGH") (VSym "SEOUL") (VStr "B100000465")
    = Ok sampleSchool /\
  finalized sampleSchool = true.
Proof.
  split; [ reflexivity | ].
  apply (constructed_is_finalized sampleData (VSym "HIGH") (VSym "SEOUL")
           (VStr "B100000465") sampleSchool eq_refl).
Defined.

(** ** The shape of the URL *)

Lemma append_associative (s t u : string) : (s ++ t) ++ u = s ++ t ++ u.
Proof. induction s as [|c s IH]; simpl; [ | rewrite IH ]; reflexivity. Qed.

Lemma year_field_or_else year :
  to_string (or_else year (VStr "")) = year_field year.
Proof. unfold or_else, year_field. now destruct (truthy year). Qed.

Lemma month_field_or_else month :
  monthFormat (or_else month (VStr "")) = month_field month.
Proof. unfold or_else, month_field. now destruct (truthy month). Qed.

Lemma createUrl_identity_meal DATA T R C year month :
  createUrl (identity DATA T R C) (VStr "meal") year month
  = (ay <- year_field year ;;
     mm <- month_field month ;;
     Ok (url_shape R (mealUrl DATA) C T ay mm)).
Proof.
  unfold createUrl. simpl.
  rewrite year_field_or_else, month_field_or_else.
  destruct (year_field year) as [ay|]; simpl; [ | reflexivity ].
  destruct (month_field month) as [mm|]; simpl; [ | reflexivity ].
  unfold url_shape. f_equal.
  repeat (progress (repeat rewrite append_associative; simpl)). reflexivity.
Qed.

Lemma createUrl_identity_calendar DATA T R C year month :
  createUrl (identity DATA T R C) (VStr "calendar") year month
  = (ay <- year_field year ;;
     mm <- month_field month ;;
     Ok (url_shape R (calendarUrl DATA) C T ay mm)).
Proof.
  unfold createUrl. simpl.
  rewrite year_field_or_else, month_field_or_else.
  destruct (year_field year) as [ay|]; simpl; [ | reflexivity ].
  destruct (month_field month) as [mm|]; simpl; [ | reflexivity ].
  unfold url_shape. f_equal.
  repeat (progress (repeat rewrite append_associative; simpl)). reflexivity.
Qed.

Lemma year_field_number y :
  year_field (VNum y) = Ok (if y =? 0 then "" else number_to_string y).
Proof. unfold year_field. simpl. now destruct (y =? 0). Qed.

Lemma month_field_number m :
  1 <= m <= 12 ->
  month_field (VNum m) = Ok (two_characters (number_to_string m)).
Proof.
  intros H. unfold month_field. simpl.
  destruct (Z.eqb_spec m 0); [ lia | simpl ].
  now apply monthFormat_two_characters.
Qed.

Lemma in_range host m : 1 <= m <= 12 -> out_of_range host (VNum m) = Ok false.
Proof.
  intros H. simpl.
  destruct (Z.ltb_spec m 1); [ lia | ].
  destruct (Z.ltb_spec 12 m); [ lia | reflexivity ].
Qed.

(** C5 (as stated, refuted).  The claim leaves the year field empty only
    for an absent year; [createUrl] leaves it empty for the year 0 as
    well: the claimed field is "0", the URL built has [ay=] empty. *)
Lemma createUrl_year_zero :
  year_field_when_absent (VNum 0) = Ok "0" /\
  month_field_when_absent (VNum 5) = Ok "05" /\
  createUrl sampleSchool (VStr "meal") (VNum 0) (VNum 5)
    = Ok "https://stu.sen.go.kr/sts_sci_md00_001.do?schulCode=B100000465&schulCrseScCode=4&schulKndScCode=04&ay=&mm=05&" /\
  createUrl sampleSchool (VStr "meal") (VNum 0) (VNum 5)
    <> Ok (url_shape "stu.sen.go.kr" "sts_sci_md00_001.do" "B100000465" "4"
             "0" "05").
Proof. repeat split. discriminate. Qed.

(** C5 (amended).  On the identity with resolved type [T], region host
    [R] and school code [C], [createUrl] returns exactly
    "https://" R "/" path "?schulCode=" C "&schulCrseScCode=" T
    "&schulKndScCode=0" T "&ay=" year "&mm=" month "&", with the meal path
    for the kind "meal" and the calendar path for "calendar", where the
    year field is the string of the year when the year is truthy and empty
    when it is falsy (absent, 0, the empty string, ...), and the month
    field is [monthFormat] of the month when the month is truthy and empty
    when it is falsy.  For a year other than 0 and a month within 1-12 the
    fields are the decimal year and the two-character month; for an absent
    year and month both are empty. *)
Theorem createUrl_shape DATA T R C :
  (forall year month,
      createUrl (identity DATA T R C) (VStr "meal") year month
      = (ay <- year_field year ;;
         mm <- month_field month ;;
         Ok (url_shape R (mealUrl DATA) C T ay mm)) /\
      createUrl (identity DATA T R C) (VStr "calendar") year month
      = (ay <- year_field year ;;
         mm <- month_field month ;;
         Ok (url_shape R (calendarUrl DATA) C T ay mm))) /\
  (forall y m,
      y <> 0 -> 1 <= m <= 12 ->
      createUrl (identity DATA T R C) (VStr "meal") (VNum y) (VNum m)
      = Ok (url_shape R (mealUrl DATA) C T (number_to_string y)
              (two_characters (number_to_string m))) /\
      createUrl (identity DATA T R C) (VStr "calendar") (VNum y) (VNum m)
      = Ok (url_shape R (calendarUrl DATA) C T (number_to_string y)
              (two_characters (number_to_string m)))) /\
  createUrl (identity DATA T R C) (VStr "meal") VUndefined VUndefined
    = Ok (url_shape R (mealUrl DATA) C T "" "") /\
  createUrl (identity DATA T R C) (VStr "calendar") VUndefined VUndefined
    = Ok (url_shape R (calendarUrl DATA) C T "" "").
Proof.
  split; [ | split; [ | split ] ].
  - intros year month. split.
    + apply createUrl_identity_meal.
    + apply createUrl_identity_calendar.
  - intros y m Hy Hm.
    rewrite createUrl_identity_meal, createUrl_identity_calendar.
    rewrite year_field_number, (month_field_number m Hm).
    destruct (Z.eqb_spec y 0); [ contradiction | ]. split; reflexivity.
  - now rewrite createUrl_identity_meal.
  - now rewrite createUrl_identity_calendar.
Qed.

Lemma createUrl_shape_witness :
  2024 <> 0 /\ 1 <= 5 <= 12 /\
  createUrl sampleSchool (VStr "meal") (VNum 2024) (VNum 5)
  = Ok (url_shape "stu.sen.go.kr" "sts_sci_md00_001.do" "B100000465" "4"
          "2024" "05").
Proof.
  split; [ lia | split; [ lia | ] ].
  apply (proj1 (proj2 (createUrl_shape sampleData "4" "stu.sen.go.kr"
                         "B100000465")) 2024 5); lia.
Defined.

(** ** Construction *)

Lemma new_School_identity DATA type region T R C :
  truthy type = true -> truthy region = true -> C <> "" ->
  index (EDUTYPE DATA) type = Ok (VStr T) ->
  index (REGION DATA) region = Ok (VStr R) ->
  new_School DATA type region (VStr C) = Ok (identity DATA T R C).
Proof.
  intros Ht Hr HC HT HR. unfold new_School, constructor. simpl.
  rewrite Ht, Hr, HT, HR. simpl.
  destruct (String.eqb_spec C ""); [ contradiction | reflexivity ].
Qed.







(** C4 (as stated, refuted).  A construction that fails for an empty type
    has already assigned five fields of the object: lines 44-48 run before
    the checks. *)
Lemma aborted_constructor_assigns_fields :
  constructor sampleData fresh (VStr "") (VSym "SEOUL") (VStr "B100000465")
    = (assign_collaborators sampleData fresh, Err MissingData) /\
  _DATA (assign_collaborators sampleData fresh) = Some sampleData /\
  _mealUrl (assign_collaborators sampleData fresh)
    = Some (VStr "sts_sci_md00_001.do") /\
  _calendarUrl (assign_collaborators sampleData fresh)
    = Some (VStr "sts_sci_sf01_001.do") /\
  _meal (assign_collaborators sampleData fresh) = Some MealFetcher /\
  _calendar (assign_collaborators sampleData fresh) = Some CalendarFetcher /\
  assign_collaborators sampleData fresh <> fresh.
Proof. repeat split. discriminate. Qed.

(** C4 (amended).  When the body of the constructor throws on a fresh
    object, [new] yields no instance, and the object it abandons has
    neither [_initialized] nor [_schoolCode] nor [_region] assigned: it is
    not finalized.  When the error is the configuration error, it is the
    missing-data error, and the object has exactly the five fields of
    lines 44-48 assigned ([_DATA], [_mealUrl], [_calendarUrl], [_meal],
    [_calendar]) and none of the four identity fields. *)
Theorem failed_construction DATA type region schoolCode this e :
  constructor DATA fresh type region schoolCode = (this, Err e) ->
  new_School DATA type region schoolCode = Err e /\
  _initialized this = None /\
  _schoolCode this = None /\
  _region this = None /\
  finalized this = false /\
  (classify e = ConfigurationError ->
   e = MissingData /\
   this = assign_collaborators DATA fresh /\
   _eduType this = None).
Proof.
  intros H. split; [ unfold new_School; now rewrite H | ].
  revert H. unfold constructor. simpl.
  destruct (truthy type && truthy region && truthy schoolCode).
  - destruct (index (EDUTYPE DATA) type) as [t|e1] eqn:E1.
    + destruct (index (REGION DATA) region) as [r|e2] eqn:E2;
        intros [= <- <-].
      apply index_error in E2. subst e2.
      repeat split; discriminate.
    + intros [= <- <-]. apply index_error in E1. subst e1.
      repeat split; discriminate.
  - intros [= <- <-]. repeat split.
Qed.

Lemma failed_construction_witness :
  constructor sampleData fresh (VStr "") (VSym "SEOUL") (VStr "B100000465")
    = (assign_collaborators sampleData fresh, Err MissingData) /\
  new_School sampleData (VStr "") (VSym "SEOUL") (VStr "B100000465")
    = Err MissingData.
Proof.
  split; [ reflexivity | ].
  apply (failed_construction sampleData (VStr "") (VSym "SEOUL")
           (VStr "B100000465") (assign_collaborators sampleData fresh)
           MissingData eq_refl).
Defined.

(** ** Queries *)

(** C1 (the code departs from the claim).  [getCalendar] reads the field
    [yaer] of its options object, so the [year] field never reaches the
    URL: the call with [{year: Y, month: M}] is the call with
    [{month: M}], and for [{year: 2024, month: 5}] the calendar URL has an
    empty [ay=] where [getMeal] builds [ay=2024]. *)
Theorem getCalendar_options_year_dropped :
  (forall host this Y M month,
      getCalendar host this (VObj [("year", Y); ("month", M)]) month
      = getCalendar host this (VObj [("month", M)]) month) /\
  getCalendar sampleHost sampleSchool
      (VObj [("year", VNum 2024); ("month", VNum 5)]) VUndefined
    = Ok {| fetcher := CalendarFetcher;
            url := "https://stu.sen.go.kr/sts_sci_sf01_001.do?schulCode=B100000465&schulCrseScCode=4&schulKndScCode=04&ay=&mm=05&";
            defaultValue := VStr "" |} /\
  getMeal sampleHost sampleSchool
      (VObj [("year", VNum 2024); ("month", VNum 5)]) VUndefined
    = Ok {| fetcher := MealFetcher;
            url := "https://stu.sen.go.kr/sts_sci_md00_001.do?schulCode=B100000465&schulCrseScCode=4&schulKndScCode=04&ay=2024&mm=05&";
            defaultValue := VStr "" |}.
Proof. repeat split. Qed.

(** C2 (the code departs from the claim).  The options object
    [{year: 2024}] specifies the year and not the month, and [getMeal]
    does not fail with the incomplete-date error: it builds a URL with
    [ay=2024] and an empty [mm=] and delegates.  The date test of lines
    148-151 sits on the [else] branch of the test of the options object,
    so that an options call skips the check the positional call and
    [getTargetURL] make; [getCalendar] does the same for [{month: 5}]. *)
Lemma options_year_only_is_accepted :
  get_member (VObj [("year", VNum 2024)]) "year" = Ok (VNum 2024) /\
  get_member (VObj [("year", VNum 2024)]) "month" = Ok VUndefined /\
  getMeal sampleHost sampleSchool (VObj [("year", VNum 2024)]) VUndefined
    = Ok {| fetcher := MealFetcher;
            url := "https://stu.sen.go.kr/sts_sci_md00_001.do?schulCode=B100000465&schulCrseScCode=4&schulKndScCode=04&ay=2024&mm=&";
            defaultValue := VStr "" |} /\
  getMeal sampleHost sampleSchool (VObj [("year", VNum 2024)]) VUndefined
    <> Err IncompleteDate /\
  getCalendar sampleHost sampleSchool (VObj [("month", VNum 5)]) VUndefined
    <> Err IncompleteDate.
Proof. repeat split; discriminate. Qed.

(** X15.  For every call of [getMeal] or [getCalendar] whose first
    argument is not of type object (the two positional values are the
    year and the month), the call fails with the incomplete-date error
    whenever exactly one of year and month is [undefined], whatever the
    instance, finalized or not, and whatever the given value is. *)
Theorem positional_incomplete_date host this year month :
  typeof year <> "object" ->
  is_undefined year <> is_undefined month ->
  getMeal host this year month = Err IncompleteDate /\
  getCalendar host this year month = Err IncompleteDate /\
  classify IncompleteDate = IncompleteDateError.
Proof.
  intros Hobj Hone. unfold getMeal, getCalendar.
  destruct (String.eqb_spec (typeof year) "object"); [ contradiction | ].
  unfold both_or_neither.
  destruct (is_undefined year), (is_undefined month);
    try congruence; repeat split.
Qed.

Lemma positional_incomplete_date_witness :
  typeof (VNum 2024) <> "object" /\
  is_undefined (VNum 2024) <> is_undefined VUndefined /\
  getMeal sampleHost sampleSchool (VNum 2024) VUndefined = Err IncompleteDate.
Proof.
  assert (H1 : typeof (VNum 2024) <> "object") by discriminate.
  assert (H2 : is_undefined (VNum 2024) <> is_undefined VUndefined)
    by discriminate.
  split; [ exact H1 | split; [ exact H2 | ] ].
  apply (positional_incomplete_date sampleHost sampleSchool (VNum 2024)
           VUndefined H1 H2).
Defined.

(** C6 (as stated, refuted).  On an instance that is not finalized the
    date checks come first: a year without a month fails with the
    incomplete-date error and the month 13 with the month-range error, not
    with the not-initialized error. *)
Lemma validation_precedes_initialization :
  finalized fresh = false /\
  getMeal sampleHost fresh (VNum 2024) VUndefined = Err IncompleteDate /\
  getMeal sampleHost fresh (VNum 2024) (VNum 13) = Err MonthRange /\
  getCalendar sampleHost fresh (VNum 2024) VUndefined = Err IncompleteDate /\
  getTargetURL fresh (VStr "meal") (VNum 2024) VUndefined = Err IncompleteDate /\
  getMeal sampleHost fresh (VNum 2024) VUndefined <> Err NotInitialized.
Proof. repeat split. discriminate. Qed.

Lemma getMeal_not_finalized host this year month :
  finalized this = false ->
  exists e,
    getMeal host this year month = Err e /\
    (e = NotInitialized \/ e = IncompleteDate \/ e = MonthRange \/ e = TypeError).
Proof.
  unfold finalized, getMeal. intros ->. unfold bind.
  repeat break_goal; eexists; (split; [ reflexivity | ]);
    type_errors; subst; auto.
  repeat break_hyp; try discriminate; type_errors;
    match goal with H : Err _ = Err _ |- _ => injection H as <- end; auto.
  all: subst; auto.
Qed.

Lemma getCalendar_not_finalized host this year month :
  finalized this = false ->
  exists e,
    getCalendar host this year month = Err e /\
    (e = NotInitialized \/ e = IncompleteDate \/ e = MonthRange \/ e = TypeError).
Proof.
  unfold finalized, getCalendar. intros ->. unfold bind.
  repeat break_goal; eexists; (split; [ reflexivity | ]);
    type_errors; subst; auto.
  repeat break_hyp; try discriminate; type_errors;
    match goal with H : Err _ = Err _ |- _ => injection H as <- end; auto.
  all: subst; auto.
Qed.

(** C6 (amended).  On an instance that is not finalized no query method
    returns, and the date checks come before the test of the instance.
    [createUrl] fails with the not-initialized error for every argument.
    [getTargetURL] fails with the incomplete-date error when exactly one
    of year and month is given, and with the not-initialized error
    otherwise.  A positional call of [getMeal] or [getCalendar] fails with
    the incomplete-date error when exactly one of year and month is
    given; otherwise, as an options call does on its [month] field, it
    fails with the month-range error when the range test rejects the
    month, with the TypeError of the range test when that throws, and
    with the not-initialized error only when the month passes the range
    test.  A call on [null] fails with a TypeError. *)
Theorem not_finalized_queries_fail host this :
  finalized this = false ->
  (forall kind year month,
      createUrl this kind year month = Err NotInitialized /\
      getTargetURL this kind year month
      = if both_or_neither year month then Err NotInitialized
        else Err IncompleteDate) /\
  (forall year month,
      (exists e,
          getMeal host this year month = Err e /\
          (e = NotInitialized \/ e = IncompleteDate \/ e = MonthRange
           \/ e = TypeError)) /\
      (exists e,
          getCalendar host this year month = Err e /\
          (e = NotInitialized \/ e = IncompleteDate \/ e = MonthRange
           \/ e = TypeError))) /\
  (forall year month,
      typeof year <> "object" ->
      both_or_neither year month = true ->
      out_of_range host month = Ok false ->
      getMeal host this year month = Err NotInitialized /\
      getCalendar host this year month = Err NotInitialized) /\
  (forall props month,
      out_of_range host (read (own_property props "month")) = Ok false ->
      getMeal host this (VObj props) month = Err NotInitialized /\
      getCalendar host this (VObj props) month = Err NotInitialized) /\
  (forall year month,
      typeof year <> "object" ->
      getMeal host this year month
      = (if both_or_neither year month then
           match out_of_range host month with
           | Ok true => Err MonthRange
           | Ok false => Err NotInitialized
           | Err e => Err e
           end
         else Err IncompleteDate) /\
      getCalendar host this year month
      = (if both_or_neither year month then
           match out_of_range host month with
           | Ok true => Err MonthRange
           | Ok false => Err NotInitialized
           | Err e => Err e
           end
         else Err IncompleteDate)) /\
  (forall props month,
      getMeal host this (VObj props) month
      = match out_of_range host (read (own_property props "month")) with
        | Ok true => Err MonthRange
        | Ok false => Err NotInitialized
        | Err e => Err e
        end /\
      getCalendar host this (VObj props) month
      = match out_of_range host (read (own_property props "month")) with
        | Ok true => Err MonthRange
        | Ok false => Err NotInitialized
        | Err e => Err e
        end) /\
  (forall month,
      getMeal host this VNull month = Err TypeError /\
      getCalendar host this VNull month = Err TypeError).
Proof.
  intros F. pose proof F as F'. unfold finalized in F'.
  assert (P : forall year month,
             typeof year <> "object" ->
             getMeal host this year month
             = (if both_or_neither year month then
                  match out_of_range host month with
                  | Ok true => Err MonthRange
                  | Ok false => Err NotInitialized
                  | Err e => Err e
                  end
                else Err IncompleteDate) /\
             getCalendar host this year month
             = (if both_or_neither year month then
                  match out_of_range host month with
                  | Ok true => Err MonthRange
                  | Ok false => Err NotInitialized
                  | Err e => Err e
                  end
                else Err IncompleteDate)).
  { intros year month Hobj. unfold getMeal, getCalendar.
    destruct (String.eqb_spec (typeof year) "object"); [ contradiction | ].
    destruct (both_or_neither year month); simpl; [ | now split ].
    destruct (out_of_range host month) as [[|]|e]; simpl;
      try rewrite F'; now split. }
  assert (O : forall props month,
             getMeal host this (VObj props) month
             = match out_of_range host (read (own_property props "month"))
               with
               | Ok true => Err MonthRange
               | Ok false => Err NotInitialized
               | Err e => Err e
               end /\
             getCalendar host this (VObj props) month
             = match out_of_range host (read (own_property props "month"))
               with
               | Ok true => Err MonthRange
               | Ok false => Err NotInitialized
               | Err e => Err e
               end).
  { intros props month. unfold getMeal, getCalendar, get_member. simpl.
    destruct (own_property props "month") as [m|]; cbn [read];
      (split;
       [ destruct (own_property props "year")
       | destruct (own_property props "yaer") ]);
      simpl;
      try (destruct (out_of_range host m) as [[|]|e]; simpl);
      try rewrite F'; reflexivity. }
  split; [ | split; [ | split; [ | split; [ | split; [ | split ] ] ] ] ].
  - intros kind year month. unfold getTargetURL.
    rewrite (createUrl_not_finalized _ kind year month F).
    split; [ reflexivity | ]. now destruct (both_or_neither year month).
  - intros year month. split.
    + now apply getMeal_not_finalized.
    + now apply getCalendar_not_finalized.
  - intros year month Hobj Hdate Hrange.
    destruct (P year month Hobj) as [-> ->].
    rewrite Hdate, Hrange. now split.
  - intros props month Hrange.
    destruct (O props month) as [-> ->]. rewrite Hrange. now split.
  - exact P.
  - exact O.
  - intros month. split; reflexivity.
Qed.

Lemma not_finalized_queries_fail_witness :
  finalized fresh = false /\
  getMeal sampleHost fresh (VNum 2024) (VNum 5) = Err NotInitialized /\
  getCalendar sampleHost fresh (options (VNum 2024) (VNum 5) VNull) VUndefined
    = Err NotInitialized /\
  getTargetURL fresh (VStr "meal") (VNum 2024) (VNum 5) = Err NotInitialized /\
  getMeal sampleHost fresh (VNum 2024) VUndefined = Err IncompleteDate /\
  getCalendar sampleHost fresh (VNum 2024) (VNum 13) = Err MonthRange /\
  getMeal sampleHost fresh (VObj [("month", VNum 0)]) VUndefined
    = Err MonthRange.
Proof.
  pose proof (not_finalized_queries_fail sampleHost fresh eq_refl)
    as (H1 & _ & H3 & H4 & H5 & H6 & _).
  assert (N : typeof (VNum 2024) <> "object") by discriminate.
  split; [ reflexivity | ].
  split; [ | split; [ | split; [ | split; [ | split ] ] ] ].
  - apply (H3 (VNum 2024) (VNum 5)); [ exact N | reflexivity | reflexivity ].
  - apply (H4 [("year", VNum 2024); ("month", VNum 5); ("default", VNull)]
              VUndefined). reflexivity.
  - rewrite (proj2 (H1 (VStr "meal") (VNum 2024) (VNum 5))). reflexivity.
  - rewrite (proj1 (H5 (VNum 2024) VUndefined N)). reflexivity.
  - rewrite (proj2 (H5 (VNum 2024) (VNum 13) N)). reflexivity.
  - rewrite (proj1 (H6 [("month", VNum 0)] VUndefined)). reflexivity.
Defined.

(** C9 (as stated, refuted).  With the default value 0 the options call
    delegates with the empty string, not with 0: a falsy default is
    replaced. *)
Lemma falsy_default_is_replaced :
  getMeal sampleHost sampleSchool
      (options (VNum 2024) (VNum 5) (VNum 0)) VUndefined
    = Ok {| fetcher := MealFetcher;
            url := "https://stu.sen.go.kr/sts_sci_md00_001.do?schulCode=B100000465&schulCrseScCode=4&schulKndScCode=04&ay=2024&mm=05&";
            defaultValue := VStr "" |} /\
  getMeal sampleHost sampleSchool
      (options (VNum 2024) (VNum 5) (VNum 0)) VUndefined
    <> Ok {| fetcher := MealFetcher;
             url := "https://stu.sen.go.kr/sts_sci_md00_001.do?schulCode=B100000465&schulCrseScCode=4&schulKndScCode=04&ay=2024&mm=05&";
             defaultValue := VNum 0 |}.
Proof. split; [ reflexivity | discriminate ]. Qed.

(** C9 (amended).  On the identity with resolved type [T], region host
    [R] and school code [C], for every year [Y], every month [M] within
    1-12 and every default value [D], the positional call [getMeal(Y, M)]
    and the options call [getMeal({year: Y, month: M, default: D})] build
    the same URL, the one [createUrl] builds for "meal", [Y] and [M], and
    both delegate to the meal fetcher: the positional call with the empty
    string as the default value, the options call with [D] when [D] is
    truthy and with the empty string when [D] is falsy. *)
Theorem getMeal_options_positional host DATA T R C Y M D month :
  1 <= M <= 12 ->
  exists target,
    createUrl (identity DATA T R C) (VStr "meal") (VNum Y) (VNum M)
      = Ok target /\
    getMeal host (identity DATA T R C) (VNum Y) (VNum M)
      = Ok {| fetcher := MealFetcher; url := target;
              defaultValue := VStr "" |} /\
    getMeal host (identity DATA T R C) (options (VNum Y) (VNum M) D) month
      = Ok {| fetcher := MealFetcher; url := target;
              defaultValue := if truthy D then D else VStr "" |}.
Proof.
  intros HM.
  pose proof (createUrl_identity_meal DATA T R C (VNum Y) (VNum M)) as U.
  rewrite year_field_number, (month_field_number M HM) in U. simpl in U.
  eexists. split; [ exact U | ].
  pose proof (in_range host M HM) as Hrange.
  split.
  - unfold getMeal. cbn [typeof String.eqb Ascii.eqb Bool.eqb].
    cbn [both_or_neither is_undefined negb andb orb bind].
    rewrite Hrange. cbn [bind]. 
    change (truthy (read (_initialized (identity DATA T R C)))) with true.
    cbn [or_else truthy get_member own_property callee _meal identity bind].
    rewrite U. reflexivity.
  - unfold getMeal, options.
    cbn [typeof String.eqb Ascii.eqb Bool.eqb get_member own_property bind].
    rewrite Hrange. cbn [bind].
    change (truthy (read (_initialized (identity DATA T R C)))) with true.
    cbn [or_else truthy get_member own_property String.eqb Ascii.eqb
           Bool.eqb callee _meal identity bind].
    rewrite U. reflexivity.
Qed.

Lemma getMeal_options_positional_witness :
  1 <= 5 <= 12 /\
  getMeal sampleHost sampleSchool
      (options (VNum 2024) (VNum 5) (VStr "none")) VUndefined
  = Ok {| fetcher := MealFetcher;
          url := "https://stu.sen.go.kr/sts_sci_md00_001.do?schulCode=B100000465&schulCrseScCode=4&schulKndScCode=04&ay=2024&mm=05&";
          defaultValue := VStr "none" |}.
Proof.
  assert (H : 1 <= 5 <= 12) by lia.
  split; [ exact H | ].
  destruct (getMeal_options_positional sampleHost sampleData "4"
              "stu.sen.go.kr" "B100000465" 2024 5 (VStr "none") VUndefined H)
    as (target & Hu & _ & Ho).
  unfold sampleSchool. rewrite Ho. cbv in Hu. injection Hu as <-.
  reflexivity.
Defined.

(** * Further properties of the class *)

(** ** The two call forms of [getMeal] and [getCalendar], unfolded *)

Lemma getMeal_positional host this year month :
  typeof year <> "object" ->
  getMeal host this year month
  = if negb (both_or_neither year month) then Err IncompleteDate
    else
      outside <- out_of_range host month ;;
      if outside then Err MonthRange
      else if finalized this then
        meal <- callee (_meal this) ;;
        target <- createUrl this (VStr "meal") year month ;;
        Ok {| fetcher := meal; url := target; defaultValue := VStr "" |}
      else Err NotInitialized.
Proof.
  intros Hobj. unfold getMeal, finalized.
  destruct (String.eqb_spec (typeof year) "object"); [ contradiction | ].
  destruct (both_or_neither year month); reflexivity.
Qed.

Lemma getCalendar_positional host this year month :
  typeof year <> "object" ->
  getCalendar host this year month
  = if negb (both_or_neither year month) then Err IncompleteDate
    else
      outside <- out_of_range host month ;;
      if outside then Err MonthRange
      else if finalized this then
        calendar <- callee (_calendar this) ;;
        target <- createUrl this (VStr "calendar") year month ;;
        Ok {| fetcher := calendar; url := target; defaultValue := VStr "" |}
      else Err NotInitialized.
Proof.
  intros Hobj. unfold getCalendar, finalized.
  destruct (String.eqb_spec (typeof year) "object"); [ contradiction | ].
  destruct (both_or_neither year month); reflexivity.
Qed.

Lemma getMeal_options_object host this props second :
  getMeal host this (VObj props) second
  = (outside <- out_of_range host (read (own_property props "month")) ;;
     if outside then Err MonthRange
     else if finalized this then
       meal <- callee (_meal this) ;;
       target <- createUrl this (VStr "meal")
                   (read (own_property props "year"))
                   (read (own_property props "month")) ;;
       Ok {| fetcher := meal; url := target;
             defaultValue :=
               or_else (read (own_property props "default")) (VStr "") |}
     else Err NotInitialized).
Proof.
  unfold getMeal, finalized, get_member. simpl.
  destruct (own_property props "year"), (own_property props "month");
    simpl; destruct (own_property props "default"); reflexivity.
Qed.

Lemma getCalendar_options_object host this props second :
  getCalendar host this (VObj props) second
  = (outside <- out_of_range host (read (own_property props "month")) ;;
     if outside then Err MonthRange
     else if finalized this then
       calendar <- callee (_calendar this) ;;
       target <- createUrl this (VStr "calendar")
                   (read (own_property props "yaer"))
                   (read (own_property props "month")) ;;
       Ok {| fetcher := calendar; url := target;
             defaultValue :=
               or_else (read (own_property props "default")) (VStr "") |}
     else Err NotInitialized).
Proof.
  unfold getCalendar, finalized, get_member. simpl.
  destruct (own_property props "yaer"), (own_property props "month");
    simpl; destruct (own_property props "default"); reflexivity.
Qed.

Lemma typeof_object year :
  typeof year = "object" -> year = VNull \/ exists props, year = VObj props.
Proof. destruct year; simpl; try discriminate; eauto. Qed.

(** ** [getTargetURL] *)

(** X1.  The checks of [getTargetURL] come in a fixed order.  A year
    without a month, or a month without a year, fails with the
    incomplete-date error on any instance and for any kind, even one that
    is no string.  With a complete date, an instance that is not finalized
    fails with the not-initialized error whatever the kind; on a finalized
    instance a kind that is not a string raises a TypeError and a string
    whose lowercase form is neither "meal" nor "calendar" the unknown-kind
    error. *)
Theorem getTargetURL_order_of_checks this kind year month :
  (both_or_neither year month = false ->
   getTargetURL this kind year month = Err IncompleteDate) /\
  (both_or_neither year month = true -> finalized this = false ->
   getTargetURL this kind year month = Err NotInitialized) /\
  (both_or_neither year month = true -> finalized this = true ->
   typeof kind <> "string" ->
   getTargetURL this kind year month = Err TypeError) /\
  (both_or_neither year month = true -> finalized this = true ->
   forall k, kind = VStr k -> lower k <> "meal" -> lower k <> "calendar" ->
   getTargetURL this kind year month = Err UnknownKind).
Proof.
  unfold getTargetURL, finalized, createUrl.
  split; [ | split; [ | split ] ].
  - now intros ->.
  - now intros -> ->.
  - intros -> -> Hk. destruct kind; try reflexivity. now elim Hk.
  - intros -> -> k -> Hm Hc. simpl.
    destruct (String.eqb_spec (lower k) "meal"); [ contradiction | ].
    destruct (String.eqb_spec (lower k) "calendar"); [ contradiction | ].
    reflexivity.
Qed.

Lemma getTargetURL_order_of_checks_witness :
  getTargetURL sampleSchool (VNum 7) (VNum 2024) VUndefined
    = Err IncompleteDate /\
  getTargetURL fresh (VNum 7) (VNum 2024) (VNum 5) = Err NotInitialized /\
  getTargetURL sampleSchool (VNum 7) (VNum 2024) (VNum 5) = Err TypeError /\
  getTargetURL sampleSchool (VStr "lunch") (VNum 2024) (VNum 5)
    = Err UnknownKind.
Proof.
  split; [ | split; [ | split ] ].
  - apply (proj1 (getTargetURL_order_of_checks sampleSchool (VNum 7)
                    (VNum 2024) VUndefined)). reflexivity.
  - apply (proj1 (proj2 (getTargetURL_order_of_checks fresh (VNum 7)
                           (VNum 2024) (VNum 5))));
      reflexivity.
  - apply (proj1 (proj2 (proj2 (getTargetURL_order_of_checks sampleSchool
                                  (VNum 7) (VNum 2024) (VNum 5)))));
      [ reflexivity | reflexivity | discriminate ].
  - apply (proj2 (proj2 (proj2 (getTargetURL_order_of_checks sampleSchool
                                  (VStr "lunch") (VNum 2024) (VNum 5))))
             eq_refl eq_refl "lunch" eq_refl); discriminate.
Defined.

(** ** The URL a query delegates with *)

(** X2.  A positional call of [getMeal] that succeeds has delegated to
    the fetcher held in [_meal], with the empty string as the default
    value and with exactly the URL [getTargetURL] returns for the kind
    "meal" and the same year and month, and the month has passed the range
    test; likewise [getCalendar] with [_calendar] and the kind
    "calendar". *)
Theorem positional_query_uses_target_url host this year month :
  typeof year <> "object" ->
  (forall d,
      getMeal host this year month = Ok d ->
      getTargetURL this (VStr "meal") year month = Ok (url d) /\
      _meal this = Some (fetcher d) /\
      defaultValue d = VStr "" /\
      out_of_range host month = Ok false) /\
  (forall d,
      getCalendar host this year month = Ok d ->
      getTargetURL this (VStr "calendar") year month = Ok (url d) /\
      _calendar this = Some (fetcher d) /\
      defaultValue d = VStr "" /\
      out_of_range host month = Ok false).
Proof.
  intros Hobj. split; intros d.
  - rewrite (getMeal_positional _ _ _ _ Hobj). unfold getTargetURL.
    destruct (both_or_neither year month); simpl; [ | discriminate ].
    destruct (out_of_range host month) as [[|]|]; simpl; try discriminate.
    destruct (finalized this); [ | discriminate ].
    destruct (_meal this) as [f|]; simpl; [ | discriminate ].
    destruct (createUrl this (VStr "meal") year month); simpl;
      [ | discriminate ].
    intros [= <-]. repeat split.
  - rewrite (getCalendar_positional _ _ _ _ Hobj). unfold getTargetURL.
    destruct (both_or_neither year month); simpl; [ | discriminate ].
    destruct (out_of_range host month) as [[|]|]; simpl; try discriminate.
    destruct (finalized this); [ | discriminate ].
    destruct (_calendar this) as [f|]; simpl; [ | discriminate ].
    destruct (createUrl this (VStr "calendar") year month); simpl;
      [ | discriminate ].
    intros [= <-]. repeat split.
Qed.

Lemma positional_query_uses_target_url_witness :
  typeof (VNum 2024) <> "object" /\
  (exists d, getMeal sampleHost sampleSchool (VNum 2024) (VNum 5) = Ok d) /\
  getTargetURL sampleSchool (VStr "meal") (VNum 2024) (VNum 5)
    = Ok "https://stu.sen.go.kr/sts_sci_md00_001.do?schulCode=B100000465&schulCrseScCode=4&schulKndScCode=04&ay=2024&mm=05&".
Proof.
  assert (H : typeof (VNum 2024) <> "object") by discriminate.
  split; [ exact H | split; [ eexists; reflexivity | ] ].
  apply (proj1 (positional_query_uses_target_url sampleHost sampleSchool
                  (VNum 2024) (VNum 5) H)
           {| fetcher := MealFetcher;
              url := "https://stu.sen.go.kr/sts_sci_md00_001.do?schulCode=B100000465&schulCrseScCode=4&schulKndScCode=04&ay=2024&mm=05&";
              defaultValue := VStr "" |} eq_refl).
Defined.

(** X3.  When the first argument is of type object, the second argument
    plays no part: the call has the same outcome for every second
    argument.  When that first argument is [null], the call raises a
    TypeError, on any instance. *)
Theorem object_argument_overrides_month host this year :
  typeof year = "object" ->
  (forall month month',
      getMeal host this year month = getMeal host this year month' /\
      getCalendar host this year month = getCalendar host this year month') /\
  (year = VNull ->
   forall month,
     getMeal host this year month = Err TypeError /\
     getCalendar host this year month = Err TypeError).
Proof.
  intros Hobj. destruct (typeof_object year Hobj) as [-> | [props ->]].
  - split; [ | intros _ ]; intros; split; reflexivity.
  - split; [ | discriminate ].
    intros month month'.
    now rewrite !getMeal_options_object, !getCalendar_options_object.
Qed.

Lemma object_argument_overrides_month_witness :
  typeof (VObj [("year", VNum 2024); ("month", VNum 5)]) = "object" /\
  getMeal sampleHost sampleSchool
      (VObj [("year", VNum 2024); ("month", VNum 5)]) (VNum 13)
  = getMeal sampleHost sampleSchool
      (VObj [("year", VNum 2024); ("month", VNum 5)]) VUndefined /\
  getCalendar sampleHost sampleSchool VNull (VNum 5) = Err TypeError.
Proof.
  split; [ reflexivity | split ].
  - apply (proj1 (object_argument_overrides_month sampleHost sampleSchool
                    (VObj [("year", VNum 2024); ("month", VNum 5)])
                    eq_refl) (VNum 13) VUndefined).
  - apply (proj2 (object_argument_overrides_month sampleHost sampleSchool
                    VNull eq_refl) eq_refl (VNum 5)).
Defined.

(** X4.  An options call that succeeds has used the fields of the object:
    [getMeal] delegates with the URL [createUrl] builds for the kind
    "meal" from the fields [year] and [month], [getCalendar] with a
    calendar URL whose month is the field [month]; the default value is
    the field [default] when that is truthy and the empty string
    otherwise, and the instance is finalized. *)
Theorem options_query_uses_fields host this props second :
  (forall d,
      getMeal host this (VObj props) second = Ok d ->
      createUrl this (VStr "meal") (read (own_property props "year"))
        (read (own_property props "month")) = Ok (url d) /\
      defaultValue d
        = (if truthy (read (own_property props "default"))
           then read (own_property props "default") else VStr "") /\
      _meal this = Some (fetcher d) /\
      finalized this = true) /\
  (forall d,
      getCalendar host this (VObj props) second = Ok d ->
      (exists year,
          createUrl this (VStr "calendar") year
            (read (own_property props "month")) = Ok (url d)) /\
      defaultValue d
        = (if truthy (read (own_property props "default"))
           then read (own_property props "default") else VStr "") /\
      _calendar this = Some (fetcher d) /\
      finalized this = true).
Proof.
  split; intros d.
  - rewrite getMeal_options_object.
    destruct (out_of_range host _) as [[|]|]; simpl; try discriminate.
    destruct (finalized this); [ | discriminate ].
    destruct (_meal this) as [f|]; simpl; [ | discriminate ].
    destruct (createUrl this (VStr "meal") _ _); simpl; [ | discriminate ].
    intros [= <-]. repeat split.
  - rewrite getCalendar_options_object.
    destruct (out_of_range host _) as [[|]|]; simpl; try discriminate.
    destruct (finalized this); [ | discriminate ].
    destruct (_calendar this) as [f|]; simpl; [ | discriminate ].
    destruct (createUrl this (VStr "calendar") _ _) eqn:U; simpl;
      [ | discriminate ].
    intros [= <-]. repeat split. eexists. exact U.
Qed.

Lemma options_query_uses_fields_witness :
  getMeal sampleHost sampleSchool
      (VObj [("default", VStr "none"); ("month", VNum 9); ("year", VNum 2018)])
      VUndefined
    = Ok {| fetcher := MealFetcher;
            url := "https://stu.sen.go.kr/sts_sci_md00_001.do?schulCode=B100000465&schulCrseScCode=4&schulKndScCode=04&ay=2018&mm=09&";
            defaultValue := VStr "none" |} /\
  createUrl sampleSchool (VStr "meal") (VNum 2018) (VNum 9)
    = Ok "https://stu.sen.go.kr/sts_sci_md00_001.do?schulCode=B100000465&schulCrseScCode=4&schulKndScCode=04&ay=2018&mm=09&".
Proof.
  split; [ reflexivity | ].
  apply (proj1 (options_query_uses_fields sampleHost sampleSchool
                  [("default", VStr "none"); ("month", VNum 9);
                   ("year", VNum 2018)] VUndefined)
           {| fetcher := MealFetcher;
              url := "https://stu.sen.go.kr/sts_sci_md00_001.do?schulCode=B100000465&schulCrseScCode=4&schulKndScCode=04&ay=2018&mm=09&";
              defaultValue := VStr "none" |} eq_refl).
Defined.

(** ** The month-range check *)

(** X5.  [getMeal] and [getCalendar] reject a month that is a number
    below 1 or above 12, [null] or [false] with the month-range error, on
    any instance, finalized or not: in a positional call whose year is
    given, and in an options call whose [month] field is such a value. *)
Theorem month_outside_range_is_rejected host this month :
  (exists m, month = VNum m /\ (m < 1 \/ 12 < m))
  \/ month = VNull \/ month = VBool false ->
  (forall year,
      typeof year <> "object" -> is_undefined year = false ->
      getMeal host this year month = Err MonthRange /\
      getCalendar host this year month = Err MonthRange) /\
  (forall props second,
      own_property props "month" = Some month ->
      getMeal host this (VObj props) second = Err MonthRange /\
      getCalendar host this (VObj props) second = Err MonthRange).
Proof.
  intros Hmonth.
  assert (Hrange : out_of_range host month = Ok true).
  { destruct Hmonth as [(m & -> & Hm) | [-> | ->]]; try reflexivity.
    simpl. destruct (Z.ltb_spec m 1); [ reflexivity | ].
    destruct (Z.ltb_spec 12 m); [ reflexivity | lia ]. }
  assert (Hdef : is_undefined month = false).
  { destruct Hmonth as [(m & -> & _) | [-> | ->]]; reflexivity. }
  split.
  - intros year Hobj Hyear.
    rewrite (getMeal_positional _ _ _ _ Hobj),
      (getCalendar_positional _ _ _ _ Hobj).
    unfold both_or_neither. rewrite Hyear, Hdef, Hrange. split; reflexivity.
  - intros props second Hprop.
    rewrite getMeal_options_object, getCalendar_options_object.
    rewrite Hprop. simpl. rewrite Hrange. split; reflexivity.
Qed.

Lemma month_outside_range_is_rejected_witness :
  getMeal sampleHost sampleSchool (VNum 2024) (VNum 13) = Err MonthRange /\
  getCalendar sampleHost fresh (VObj [("month", VNum 0)]) VUndefined
    = Err MonthRange /\
  getMeal sampleHost sampleSchool (VNum 2024) VNull = Err MonthRange.
Proof.
  assert (H13 : (exists m, VNum 13 = VNum m /\ (m < 1 \/ 12 < m))
                \/ VNum 13 = VNull \/ VNum 13 = VBool false)
    by (left; exists 13; split; [ reflexivity | lia ]).
  assert (H0 : (exists m, VNum 0 = VNum m /\ (m < 1 \/ 12 < m))
               \/ VNum 0 = VNull \/ VNum 0 = VBool false)
    by (left; exists 0; split; [ reflexivity | lia ]).
  split; [ | split ].
  - apply (proj1 (month_outside_range_is_rejected sampleHost sampleSchool
                    (VNum 13) H13) (VNum 2024));
      [ discriminate | reflexivity ].
  - apply (proj2 (month_outside_range_is_rejected sampleHost fresh (VNum 0)
                    H0) [("month", VNum 0)] VUndefined eq_refl).
  - apply (proj1 (month_outside_range_is_rejected sampleHost sampleSchool
                    VNull (or_intror (or_introl eq_refl)))
             (VNum 2024)); [ discriminate | reflexivity ].
Defined.

(** ** The errors of the queries *)

Lemma createUrl_fixed_kind_error this kind year month e :
  lower kind = "meal" \/ lower kind = "calendar" ->
  createUrl this (VStr kind) year month = Err e ->
  e = NotInitialized \/ e = TypeError.
Proof.
  intros Hkind. destruct (finalized this) eqn:F.
  - intros H.
    destruct (createUrl_finalized_error _ _ _ _ _ F H) as [-> | ->];
      [ | now right ].
    exfalso. revert H. unfold createUrl. unfold finalized in F. rewrite F.
    simpl. unfold bind.
    destruct Hkind as [-> | ->]; simpl;
      repeat break_goal; intros [= E]; type_errors; congruence.
  - rewrite (createUrl_not_finalized _ _ _ _ F). intros [= <-]. now left.
Qed.

(** X6.  [getMeal] and [getCalendar] fail with one of four errors only:
    incomplete date, month range, not initialized, or a TypeError of the
    language; never with the unknown-kind error of [createUrl] nor with an
    error of the constructor.  The incomplete-date error is that of a
    positional call with exactly one of year and month given, and the
    not-initialized error that of an instance that is not finalized. *)
Theorem query_errors host this year month e :
  getMeal host this year month = Err e \/
  getCalendar host this year month = Err e ->
  (e = IncompleteDate \/ e = MonthRange \/ e = NotInitialized
   \/ e = TypeError) /\
  (e = IncompleteDate ->
   typeof year <> "object" /\ is_undefined year <> is_undefined month) /\
  (e = NotInitialized -> finalized this = false).
Proof.
  assert (D : forall y m, both_or_neither y m = false ->
                is_undefined y <> is_undefined m).
  { intros y m. unfold both_or_neither.
    destruct (is_undefined y), (is_undefined m); simpl; congruence. }
  assert (U : forall kind y m e',
             lower kind = "meal" \/ lower kind = "calendar" ->
             createUrl this (VStr kind) y m = Err e' ->
             finalized this = true -> e' = TypeError).
  { intros kind y m e' Hk H F.
    destruct (createUrl_fixed_kind_error _ _ _ _ _ Hk H) as [-> | ->];
      [ | reflexivity ].
    destruct (createUrl_finalized_error _ _ _ _ _ F H); discriminate. }
  destruct (String.eqb_spec (typeof year) "object") as [Hobj | Hobj].
  - destruct (typeof_object year Hobj) as [-> | [props ->]].
    + intros [[= <-] | [= <-]]; repeat split; auto; discriminate.
    + rewrite getMeal_options_object, getCalendar_options_object.
      unfold bind.
      intros [H | H]; revert H;
        repeat break_goal; intros [= <-]; type_errors; subst;
        try (repeat split; auto; discriminate).
      all: try match goal with
               | H : callee _ = Err _ |- _ =>
                   apply callee_error in H; subst;
                   repeat split; auto; discriminate
               end.
      all: match goal with
           | H : createUrl _ (VStr ?k) _ _ = Err _ |- _ =>
               apply (U k) in H; [ | simpl; auto | reflexivity ]; subst;
               repeat split; auto; discriminate
           end.
  - rewrite (getMeal_positional _ _ _ _ Hobj),
      (getCalendar_positional _ _ _ _ Hobj).
    destruct (both_or_neither year month) eqn:B; simpl.
    + unfold bind.
      intros [H | H]; revert H;
        repeat break_goal; intros [= <-]; type_errors; subst;
        try (repeat split; auto; discriminate).
      all: try match goal with
               | H : callee _ = Err _ |- _ =>
                   apply callee_error in H; subst;
                   repeat split; auto; discriminate
               end.
      all: match goal with
           | H : createUrl _ (VStr ?k) _ _ = Err _ |- _ =>
               apply (U k) in H; [ | simpl; auto | reflexivity ]; subst;
               repeat split; auto; discriminate
           end.
    + intros [[= <-] | [= <-]]; repeat split; auto; discriminate.
Qed.

Lemma query_errors_witness :
  getMeal sampleHost sampleSchool (VNum 2024) VUndefined = Err IncompleteDate /\
  typeof (VNum 2024) <> "object" /\
  getCalendar sampleHost fresh (VNum 2024) (VNum 5) = Err NotInitialized /\
  finalized fresh = false.
Proof.
  pose proof (query_errors sampleHost sampleSchool (VNum 2024) VUndefined
                IncompleteDate (or_introl eq_refl)) as (_ & H & _).
  pose proof (query_errors sampleHost fresh (VNum 2024) (VNum 5)
                NotInitialized (or_intror eq_refl)) as (_ & _ & H').
  split; [ reflexivity | split; [ | split; [ reflexivity | ] ] ].
  - apply (H eq_refl).
  - apply (H' eq_refl).
Defined.

(** ** Construction followed by a query *)

(** X7.  When the type and the region are truthy and resolve in the
    catalogs to the strings [T] and [R], and the school code is a
    non-empty string [C], [new School(type, region, C)] returns an
    instance on which, for every year other than 0 and every month within
    1-12, [getMeal(year, month)] delegates to the meal fetcher and
    [getCalendar(year, month)] to the calendar fetcher, each with the
    empty string as the default value and with its URL of host [R], codes
    [C] and [T], the decimal year and the two-character month, which is
    also the URL [getTargetURL] returns; the calls without arguments
    delegate with the year and month fields empty. *)
Theorem construction_then_query host DATA type region T R C :
  truthy type = true -> truthy region = true -> C <> "" ->
  index (EDUTYPE DATA) type = Ok (VStr T) ->
  index (REGION DATA) region = Ok (VStr R) ->
  exists this,
    new_School DATA type region (VStr C) = Ok this /\
    (forall y m,
        y <> 0 -> 1 <= m <= 12 ->
        getMeal host this (VNum y) (VNum m)
        = Ok {| fetcher := MealFetcher;
                url := url_shape R (mealUrl DATA) C T (number_to_string y)
                         (two_characters (number_to_string m));
                defaultValue := VStr "" |} /\
        getCalendar host this (VNum y) (VNum m)
        = Ok {| fetcher := CalendarFetcher;
                url := url_shape R (calendarUrl DATA) C T (number_to_string y)
                         (two_characters (number_to_string m));
                defaultValue := VStr "" |} /\
        getTargetURL this (VStr "meal") (VNum y) (VNum m)
        = Ok (url_shape R (mealUrl DATA) C T (number_to_string y)
                (two_characters (number_to_string m))) /\
        getTargetURL this (VStr "calendar") (VNum y) (VNum m)
        = Ok (url_shape R (calendarUrl DATA) C T (number_to_string y)
                (two_characters (number_to_string m)))) /\
    getMeal host this VUndefined VUndefined
    = Ok {| fetcher := MealFetcher;
            url := url_shape R (mealUrl DATA) C T "" "";
            defaultValue := VStr "" |} /\
    getCalendar host this VUndefined VUndefined
    = Ok {| fetcher := CalendarFetcher;
            url := url_shape R (calendarUrl DATA) C T "" "";
            defaultValue := VStr "" |}.
Proof.
  intros Ht Hr HC HT HR. exists (identity DATA T R C).
  split; [ now apply new_School_identity | ].
  split; [ intros y m Hy Hm | ].
  - assert (N : typeof (VNum y) <> "object") by discriminate.
    rewrite (getMeal_positional _ _ _ _ N), (getCalendar_positional _ _ _ _ N).
    unfold getTargetURL.
    change (both_or_neither (VNum y) (VNum m)) with true.
    rewrite (in_range host m Hm).
    rewrite createUrl_identity_meal, createUrl_identity_calendar,
      year_field_number, (month_field_number m Hm).
    destruct (Z.eqb_spec y 0); [ contradiction | ].
    repeat split.
  - assert (N : typeof VUndefined <> "object") by discriminate.
    rewrite (getMeal_positional _ _ _ _ N), (getCalendar_positional _ _ _ _ N).
    rewrite createUrl_identity_meal, createUrl_identity_calendar.
    split; reflexivity.
Qed.

Lemma construction_then_query_witness :
  exists this,
    new_School sampleData (VSym "HIGH") (VSym "SEOUL") (VStr "B100000465")
      = Ok this /\
    getCalendar sampleHost this (VNum 2017) (VNum 4)
    = Ok {| fetcher := CalendarFetcher;
            url := "https://stu.sen.go.kr/sts_sci_sf01_001.do?schulCode=B100000465&schulCrseScCode=4&schulKndScCode=04&ay=2017&mm=04&";
            defaultValue := VStr "" |}.
Proof.
  assert (HC : "B100000465" <> "") by discriminate.
  destruct (construction_then_query sampleHost sampleData (VSym "HIGH")
              (VSym "SEOUL") "4" "stu.sen.go.kr" "B100000465"
              eq_refl eq_refl HC eq_refl eq_refl) as (this & Hnew & Hq & _).
  exists this. split; [ exact Hnew | ].
  assert (Hy : 2017 <> 0) by lia. assert (Hm : 1 <= 4 <= 12) by lia.
  destruct (Hq 2017 4 Hy Hm) as (_ & Hc & _). exact Hc.
Defined.

(** ** The month field *)

Lemma two_characters_length s :
  String.length (two_characters s) = 0%nat
  \/ String.length (two_characters s) = 2%nat.
Proof.
  unfold two_characters.
  destruct s as [|c [|c' [|c'' s']]]; simpl; auto.
Qed.

Lemma call_toString_fails month e :
  call_toString month = Err e ->
  e = TypeError /\
  (month = VUndefined \/ month = VNull
   \/ exists props, month = VObj props /\ has_own props "toString" = true).
Proof.
  destruct month; simpl; try discriminate; try (intros [= <-]; auto).
  unfold object_to_primitive.
  destruct (has_own props "toString") eqn:E; [ | discriminate ].
  intros [= <-]. split; [ reflexivity | ]. right. right. eauto.
Qed.

(** X8.  For a primitive argument [monthFormat] either throws or returns
    a string that is empty or exactly two code units long: it throws, a
    TypeError, for [undefined] and for [null], which have no [toString],
    and it returns such a string for every boolean, number, string and
    symbol. *)
Theorem monthFormat_result month :
  (forall props, month <> VObj props) ->
  (month = VUndefined \/ month = VNull ->
   monthFormat month = Err TypeError) /\
  (month <> VUndefined -> month <> VNull ->
   exists r,
     monthFormat month = Ok r /\
     (String.length r = 0%nat \/ String.length r = 2%nat)).
Proof.
  intros Hobj. split.
  - intros [-> | ->]; reflexivity.
  - intros Hu Hn.
    destruct (call_toString month) as [s|e] eqn:E.
    + exists (two_characters s).
      split; [ now apply monthFormat_two_characters | ].
      apply two_characters_length.
    + exfalso.
      apply call_toString_fails in E as (_ & [-> | [-> | (props & -> & _)]]).
      * now apply Hu.
      * now apply Hn.
      * now apply (Hobj props).
Qed.

Lemma monthFormat_result_witness :
  (exists r,
      monthFormat (VSym "m") = Ok r /\
      (String.length r = 0%nat \/ String.length r = 2%nat)) /\
  monthFormat VNull = Err TypeError.
Proof.
  assert (Hs : forall props, VSym "m" <> VObj props) by discriminate.
  assert (Hn : forall props, VNull <> VObj props) by discriminate.
  split.
  - apply (proj2 (monthFormat_result (VSym "m") Hs)); discriminate.
  - apply (proj1 (monthFormat_result VNull Hn)). now right.
Defined.

(** ** Decimal strings *)

Lemma range_check (P : Z -> bool) (lo hi : Z) :
  forallb P (map (fun k => lo + Z.of_nat k)
               (seq 0 (Z.to_nat (hi - lo + 1)))) = true ->
  forall m, lo <= m <= hi -> P m = true.
Proof.
  intros H m Hm. rewrite forallb_forall in H. apply H.
  apply in_map_iff. exists (Z.to_nat (m - lo)). split; [ lia | ].
  apply in_seq. lia.
Qed.

Lemma uint_string_length d :
  String.length (NilEmpty.string_of_uint d) = Decimal.nb_digits d.
Proof. induction d; simpl; congruence. Qed.

Lemma two_digits_at_most d :
  (Decimal.nb_digits d <= 2)%nat -> (Pos.of_uint d <= 99)%N.
Proof.
  destruct d as [|d|d|d|d|d|d|d|d|d|d]; [ now intros _ | .. ];
    (destruct d as [|d|d|d|d|d|d|d|d|d|d]; [ now intros _ | .. ]);
    (destruct d; [ now intros _ | .. ]); simpl; lia.
Qed.

Lemma one_digit_at_most d :
  (Decimal.nb_digits d <= 1)%nat -> (Pos.of_uint d <= 9)%N.
Proof.
  destruct d as [|d|d|d|d|d|d|d|d|d|d]; [ now intros _ | .. ];
    (destruct d; [ now intros _ | .. ]); simpl; lia.
Qed.

Lemma positive_to_string p :
  number_to_string (Z.pos p) = NilEmpty.string_of_uint (Pos.to_uint p).
Proof.
  unfold number_to_string. simpl.
  pose proof (DecimalPos.Unsigned.to_uint_nonnil p) as H.
  now destruct (Pos.to_uint p).
Qed.

Lemma negative_to_string p :
  number_to_string (Z.neg p)
  = String "-" (NilEmpty.string_of_uint (Pos.to_uint p)).
Proof.
  unfold number_to_string. simpl.
  pose proof (DecimalPos.Unsigned.to_uint_nonnil p) as H.
  now destruct (Pos.to_uint p).
Qed.

Lemma long_number_to_string m :
  100 <= m \/ m <= -10 -> (2 < String.length (number_to_string m))%nat.
Proof.
  intros H. destruct m as [|p|p]; [ lia | | ].
  - rewrite positive_to_string, uint_string_length.
    destruct (Nat.le_gt_cases (Decimal.nb_digits (Pos.to_uint p)) 2)
      as [L | L]; [ exfalso | exact L ].
    apply two_digits_at_most in L.
    rewrite DecimalPos.Unsigned.of_to in L. lia.
  - rewrite negative_to_string. simpl. rewrite uint_string_length.
    destruct (Nat.le_gt_cases (Decimal.nb_digits (Pos.to_uint p)) 1)
      as [L | L]; [ exfalso | lia ].
    apply one_digit_at_most in L.
    rewrite DecimalPos.Unsigned.of_to in L. lia.
Qed.

Lemma number_to_string_injective n n' :
  number_to_string n = number_to_string n' -> n = n'.
Proof.
  unfold number_to_string. intros H.
  apply DecimalZ.to_int_inj.
  assert (P : forall z, NilZero.int_of_string
                          (NilZero.string_of_int (Z.to_int z))
                        = Some (Z.to_int z)).
  { intros z. apply NilZero.isi; destruct z; simpl; intros [= E];
      try discriminate;
      now apply (DecimalPos.Unsigned.to_uint_nonnil p). }
  apply (f_equal NilZero.int_of_string) in H. rewrite !P in H.
  now injection H.
Qed.

Lemma Ok_eqb (r r' : string) : (r =? r')%string = true -> Ok r = Ok r'.
Proof. intros H. apply String.eqb_eq in H. now subst. Qed.

Lemma monthFormat_keeps_two_digits m :
  10 <= m <= 99 -> monthFormat (VNum m) = Ok (number_to_string m).
Proof.
  intros H.
  apply (range_check
           (fun k => match monthFormat (VNum k) with
                     | Ok r => (r =? number_to_string k)%string
                     | Err _ => false
                     end) 10 99 eq_refl) in H.
  destruct (monthFormat (VNum m)); [ now apply Ok_eqb | discriminate ].
Qed.

Lemma monthFormat_drops_long m :
  100 <= m \/ m <= -10 -> monthFormat (VNum m) = Ok "".
Proof.
  intros H. apply long_number_to_string in H.
  unfold monthFormat. simpl. apply Nat.ltb_lt in H. now rewrite H.
Qed.

(** X9.  On an integer month [monthFormat] pads 0-9 with one "0", keeps
    10-99 as they are, keeps the negative numbers -9 to -1 as they are
    (the sign fills the second place), and returns the empty string for
    every integer from 100 upwards and from -10 downwards. *)
Theorem monthFormat_of_number m :
  (0 <= m <= 9 -> monthFormat (VNum m) = Ok ("0" ++ number_to_string m)) /\
  (10 <= m <= 99 \/ -9 <= m <= -1 ->
   monthFormat (VNum m) = Ok (number_to_string m)) /\
  (100 <= m \/ m <= -10 -> monthFormat (VNum m) = Ok "").
Proof.
  split; [ | split ].
  - intros H.
    apply (range_check
             (fun k => match monthFormat (VNum k) with
                       | Ok r => (r =? "0" ++ number_to_string k)%string
                       | Err _ => false
                       end) 0 9 eq_refl) in H.
    destruct (monthFormat (VNum m)); [ now apply Ok_eqb | discriminate ].
  - intros [H | H]; [ now apply monthFormat_keeps_two_digits | ].
    apply (range_check
             (fun k => match monthFormat (VNum k) with
                       | Ok r => (r =? number_to_string k)%string
                       | Err _ => false
                       end) (-9) (-1) eq_refl) in H.
    destruct (monthFormat (VNum m)); [ now apply Ok_eqb | discriminate ].
  - apply monthFormat_drops_long.
Qed.

Lemma monthFormat_of_number_witness :
  monthFormat (VNum 9) = Ok "09" /\
  monthFormat (VNum 31) = Ok "31" /\
  monthFormat (VNum (-3)) = Ok "-3" /\
  monthFormat (VNum 2024) = Ok "".
Proof.
  split; [ | split; [ | split ] ].
  - apply (proj1 (monthFormat_of_number 9)). lia.
  - apply (proj1 (proj2 (monthFormat_of_number 31))). lia.
  - apply (proj1 (proj2 (monthFormat_of_number (-3)))). lia.
  - apply (proj2 (proj2 (monthFormat_of_number 2024))). lia.
Defined.

Lemma month_field_nonzero m :
  m <> 0 -> month_field (VNum m) = Ok (two_characters (number_to_string m)).
Proof.
  intros H. unfold month_field. simpl.
  destruct (Z.eqb_spec m 0); [ contradiction | simpl ].
  now apply monthFormat_two_characters.
Qed.

(** X10.  [getTargetURL] applies no month-range check.  On the identity
    with resolved type [T], region host [R] and school code [C], and for a
    year other than 0, a month from 13 to 99 goes into the URL as it is,
    and for a month from 100 upwards the URL is built with an empty month
    field; [getMeal] rejects both. *)
Theorem getTargetURL_has_no_range_check host DATA T R C y m :
  y <> 0 -> 13 <= m ->
  getTargetURL (identity DATA T R C) (VStr "meal") (VNum y) (VNum m)
  = Ok (url_shape R (mealUrl DATA) C T (number_to_string y)
          (if m <=? 99 then number_to_string m else "")) /\
  getTargetURL (identity DATA T R C) (VStr "calendar") (VNum y) (VNum m)
  = Ok (url_shape R (calendarUrl DATA) C T (number_to_string y)
          (if m <=? 99 then number_to_string m else "")) /\
  getMeal host (identity DATA T R C) (VNum y) (VNum m) = Err MonthRange.
Proof.
  intros Hy Hm.
  assert (F : monthFormat (VNum m)
              = Ok (if m <=? 99 then number_to_string m else "")).
  { destruct (Z.leb_spec m 99).
    - apply monthFormat_keeps_two_digits. lia.
    - apply monthFormat_drops_long. lia. }
  assert (M : month_field (VNum m)
              = Ok (if m <=? 99 then number_to_string m else "")).
  { unfold month_field. simpl.
    destruct (Z.eqb_spec m 0); [ lia | exact F ]. }
  unfold getTargetURL. change (both_or_neither (VNum y) (VNum m)) with true.
  simpl negb. cbv iota.
  rewrite createUrl_identity_meal, createUrl_identity_calendar,
    year_field_number, M.
  destruct (Z.eqb_spec y 0); [ contradiction | ].
  split; [ reflexivity | split; [ reflexivity | ] ].
  assert (N : typeof (VNum y) <> "object") by discriminate.
  rewrite (getMeal_positional _ _ _ _ N).
  change (both_or_neither (VNum y) (VNum m)) with true. simpl.
  destruct (Z.ltb_spec m 1); [ reflexivity | ].
  destruct (Z.ltb_spec 12 m); [ reflexivity | lia ].
Qed.

Lemma getTargetURL_has_no_range_check_witness :
  2024 <> 0 /\ 13 <= 13 /\
  getTargetURL sampleSchool (VStr "meal") (VNum 2024) (VNum 13)
  = Ok "https://stu.sen.go.kr/sts_sci_md00_001.do?schulCode=B100000465&schulCrseScCode=4&schulKndScCode=04&ay=2024&mm=13&".
Proof.
  assert (Hy : 2024 <> 0) by lia. assert (Hm : 13 <= 13) by lia.
  split; [ exact Hy | split; [ exact Hm | ] ].
  apply (proj1 (getTargetURL_has_no_range_check sampleHost sampleData "4"
                  "stu.sen.go.kr" "B100000465" 2024 13 Hy Hm)).
Defined.

(** ** The failures of construction *)

Lemma index_fails c v e :
  index c v = Err e ->
  e = TypeError /\
  exists props, v = VObj props /\ has_own props "toString" = true.
Proof.
  unfold index, to_property_key.
  destruct v; simpl; try discriminate.
  unfold object_to_primitive.
  destruct (has_own props "toString") eqn:E; simpl; [ | discriminate ].
  intros [= <-]. eauto.
Qed.

(** X11.  [new School(...)] fails in two ways only.  It fails with the
    missing-data error exactly when one of its three arguments is falsy.
    It fails with a TypeError when the three are truthy and the type or
    the region is an object with an own [toString] property, which does
    not convert to a property key.  It never fails with the
    already-initialized error: on the fresh object of [new] the guard of
    line 50 does not fire. *)
Theorem construction_errors DATA type region schoolCode e :
  new_School DATA type region schoolCode = Err e ->
  (e = MissingData /\
   truthy type && truthy region && truthy schoolCode = false)
  \/ (e = TypeError /\
      truthy type && truthy region && truthy schoolCode = true /\
      exists props,
        (type = VObj props \/ region = VObj props) /\
        has_own props "toString" = true).
Proof.
  unfold new_School, constructor. simpl.
  destruct (truthy type && truthy region && truthy schoolCode).
  - destruct (index (EDUTYPE DATA) type) as [t|e1] eqn:E1.
    + destruct (index (REGION DATA) region) as [r|e2] eqn:E2; simpl;
        [ discriminate | ].
      intros [= <-]. apply index_fails in E2 as (-> & props & -> & H).
      right. repeat split. exists props. auto.
    + simpl. intros [= <-].
      apply index_fails in E1 as (-> & props & -> & H).
      right. repeat split. exists props. auto.
  - simpl. intros [= <-]. now left.
Qed.

Lemma construction_errors_witness :
  new_School sampleData (VSym "HIGH") VUndefined (VStr "B100000465")
    = Err MissingData /\
  truthy (VSym "HIGH") && truthy VUndefined && truthy (VStr "B100000465")
    = false.
Proof.
  split; [ reflexivity | ].
  destruct (construction_errors sampleData (VSym "HIGH") VUndefined
              (VStr "B100000465") MissingData eq_refl) as [[_ H] | [H _]].
  - exact H.
  - discriminate H.
Defined.

(** ** Primitive arguments *)

(** X12.  On the identity with resolved type [T], region host [R] and
    school code [C], [createUrl] returns a URL for both kinds whenever the
    year is neither a symbol nor an object and the month is not an object
    ([null] is accepted for both): no conversion fails.  The URL has the
    shape of section 4.3 and its month field is empty or exactly two code
    units long. *)
Theorem createUrl_succeeds_on_primitives DATA T R C year month :
  typeof year <> "symbol" ->
  year = VNull \/ typeof year <> "object" ->
  month = VNull \/ typeof month <> "object" ->
  exists ay mm,
    createUrl (identity DATA T R C) (VStr "meal") year month
      = Ok (url_shape R (mealUrl DATA) C T ay mm) /\
    createUrl (identity DATA T R C) (VStr "calendar") year month
      = Ok (url_shape R (calendarUrl DATA) C T ay mm) /\
    (String.length mm = 0%nat \/ String.length mm = 2%nat).
Proof.
  intros Hsym Hy Hm.
  assert (Y : exists ay, year_field year = Ok ay).
  { unfold year_field.
    destruct year as [ | | b | n | s | d | props ]; simpl in *.
    - eauto.
    - eauto.
    - destruct b; eauto.
    - destruct (n =? 0); simpl; eauto.
    - destruct (s =? "")%string; simpl; eauto.
    - now elim Hsym.
    - destruct Hy as [Hy | Hy]; [ discriminate | now elim Hy ]. }
  assert (M : exists s, month_field month = Ok (two_characters s)).
  { unfold month_field.
    destruct (truthy month) eqn:Tm; [ | now exists "" ].
    destruct (call_toString month) as [s|e] eqn:E.
    - exists s. now apply monthFormat_two_characters.
    - exfalso. apply call_toString_fails in E as (_ & [-> | [-> | H]]);
        try discriminate.
      destruct H as (props & -> & _).
      destruct Hm as [Hm | Hm]; [ discriminate | now elim Hm ]. }
  destruct Y as (ay & Y), M as (s & M).
  exists ay, (two_characters s).
  rewrite createUrl_identity_meal, createUrl_identity_calendar, Y, M.
  repeat split. apply two_characters_length.
Qed.

Lemma createUrl_succeeds_on_primitives_witness :
  typeof (VStr "2024") <> "symbol" /\
  exists ay mm,
    createUrl sampleSchool (VStr "meal") (VStr "2024") (VBool true)
      = Ok (url_shape "stu.sen.go.kr" "sts_sci_md00_001.do" "B100000465" "4"
              ay mm).
Proof.
  assert (H1 : typeof (VStr "2024") <> "symbol") by discriminate.
  assert (H2 : VStr "2024" = VNull \/ typeof (VStr "2024") <> "object")
    by (right; discriminate).
  assert (H3 : VBool true = VNull \/ typeof (VBool true) <> "object")
    by (right; discriminate).
  split; [ exact H1 | ].
  destruct (createUrl_succeeds_on_primitives sampleData "4" "stu.sen.go.kr"
              "B100000465" (VStr "2024") (VBool true) H1 H2 H3)
    as (ay & mm & H & _).
  exists ay, mm. exact H.
Defined.

(** ** Distinct dates, distinct URLs *)

Lemma append_left_cancel (s a b : string) : s ++ a = s ++ b -> a = b.
Proof.
  induction s as [|c s IH]; simpl; [ easy | ].
  intros [= H]. now apply IH.
Qed.

Lemma split_at_separator c s s' t t' :
  free_of c s = true -> free_of c s' = true ->
  s ++ String c t = s' ++ String c t' -> s = s' /\ t = t'.
Proof.
  revert s'. induction s as [|a s IH]; intros [|a' s']; simpl.
  - intros _ _ [= ->]. now split.
  - intros _ H [= <- _]. rewrite Ascii.eqb_refl in H. discriminate.
  - intros H _ [= -> _]. rewrite Ascii.eqb_refl in H. discriminate.
  - intros H H' [= <- E].
    apply andb_true_iff in H as [_ H]. apply andb_true_iff in H' as [_ H'].
    destruct (IH s' H H' E) as [-> ->]. now split.
Qed.

Lemma uint_free_of_ampersand d :
  free_of "&" (NilEmpty.string_of_uint d) = true.
Proof. induction d; simpl; auto. Qed.

Lemma number_free_of_ampersand n : free_of "&" (number_to_string n) = true.
Proof.
  destruct n as [|p|p].
  - reflexivity.
  - rewrite positive_to_string. apply uint_free_of_ampersand.
  - rewrite negative_to_string. simpl. apply uint_free_of_ampersand.
Qed.

Lemma two_characters_free_of_ampersand s :
  free_of "&" s = true -> free_of "&" (two_characters s) = true.
Proof.
  unfold two_characters. intros H.
  destruct (2 <? String.length s)%nat; [ reflexivity | ].
  destruct (String.length s =? 1)%nat; [ simpl; exact H | exact H ].
Qed.

Lemma two_characters_distinct m m' :
  1 <= m <= 99 -> 1 <= m' <= 99 ->
  two_characters (number_to_string m) = two_characters (number_to_string m') ->
  m = m'.
Proof.
  intros Hm Hm' E.
  assert (C : forallb
                (fun a =>
                   forallb
                     (fun b =>
                        implb (two_characters (number_to_string a)
                               =? two_characters (number_to_string b))%string
                          (a =? b))
                     (map (fun k => 1 + Z.of_nat k)
                        (seq 0 (Z.to_nat (99 - 1 + 1)))))
                (map (fun k => 1 + Z.of_nat k)
                   (seq 0 (Z.to_nat (99 - 1 + 1)))) = true)
    by (vm_compute; reflexivity).
  pose proof (range_check _ 1 99 C m Hm) as C'. cbv beta in C'.
  pose proof (range_check _ 1 99 C' m' Hm') as C''. cbv beta in C''.
  rewrite E, String.eqb_refl in C''. simpl in C''. now apply Z.eqb_eq.
Qed.

(** X13.  On one identity and for one kind, two dates give the same URL
    only when they are the same date: for years other than 0 and months
    from 1 to 99, [createUrl] returns equal results for (year, month) and
    (year', month') only if year = year' and month = month'. *)
Theorem createUrl_distinguishes_dates DATA T R C kind y m y' m' :
  kind = "meal" \/ kind = "calendar" ->
  y <> 0 -> y' <> 0 -> 1 <= m <= 99 -> 1 <= m' <= 99 ->
  createUrl (identity DATA T R C) (VStr kind) (VNum y) (VNum m)
  = createUrl (identity DATA T R C) (VStr kind) (VNum y') (VNum m') ->
  y = y' /\ m = m'.
Proof.
  intros Hkind Hy Hy' Hm Hm'.
  assert (S : forall path,
             Ok (url_shape R path C T (number_to_string y)
                   (two_characters (number_to_string m)))
             = Ok (url_shape R path C T (number_to_string y')
                     (two_characters (number_to_string m'))) ->
             y = y' /\ m = m').
  { intros path [= H]. unfold url_shape in H.
    repeat first [ apply append_left_cancel in H | injection H as H ].
    apply (split_at_separator "&" _ _
             ("mm=" ++ two_characters (number_to_string m) ++ "&")
             ("mm=" ++ two_characters (number_to_string m') ++ "&")
             (number_free_of_ampersand y) (number_free_of_ampersand y'))
      in H as [Ey H].
    apply append_left_cancel in H.
    apply (split_at_separator "&" _ _ "" ""
             (two_characters_free_of_ampersand _ (number_free_of_ampersand m))
             (two_characters_free_of_ampersand _
                (number_free_of_ampersand m')))
      in H as [Em _].
    split.
    - now apply number_to_string_injective.
    - now apply two_characters_distinct. }
  assert (Z0 : m <> 0) by lia. assert (Z0' : m' <> 0) by lia.
  destruct Hkind as [-> | ->].
  - rewrite !createUrl_identity_meal, !year_field_number,
      (month_field_nonzero m Z0), (month_field_nonzero m' Z0').
    destruct (Z.eqb_spec y 0); [ contradiction | ].
    destruct (Z.eqb_spec y' 0); [ contradiction | ].
    apply S.
  - rewrite !createUrl_identity_calendar, !year_field_number,
      (month_field_nonzero m Z0), (month_field_nonzero m' Z0').
    destruct (Z.eqb_spec y 0); [ contradiction | ].
    destruct (Z.eqb_spec y' 0); [ contradiction | ].
    apply S.
Qed.

Lemma createUrl_distinguishes_dates_witness :
  createUrl sampleSchool (VStr "calendar") (VNum 2024) (VNum 5)
  <> createUrl sampleSchool (VStr "calendar") (VNum 2024) (VNum 6).
Proof.
  intros H.
  assert (Hy : 2024 <> 0) by lia.
  assert (H5 : 1 <= 5 <= 99) by lia. assert (H6 : 1 <= 6 <= 99) by lia.
  destruct (createUrl_distinguishes_dates sampleData "4" "stu.sen.go.kr"
              "B100000465" "calendar" 2024 5 2024 6
              (or_intror eq_refl) Hy Hy H5 H6 H) as [_ E].
  discriminate E.
Defined.

(** ** The guard against a second initialization *)

Lemma constructor_stores DATA this0 type region schoolCode this :
  constructor DATA this0 type region schoolCode = (this, Ok tt) ->
  _schoolCode this = Some schoolCode /\
  _initialized this = Some (VBool true).
Proof.
  unfold constructor. unfold bind.
  repeat break_goal; intros [= <-]; split; reflexivity.
Qed.

(** X14.  Once the body of the constructor has completed on an object,
    a second run of the body on that object fails, whatever its
    arguments and its [DATA]: with the already-initialized error naming
    the school code the first run stored (when that code converts to a
    string).  The second run reassigns the five fields of lines 44-48 and
    leaves [_eduType], [_region], [_schoolCode] and [_initialized] as the
    first run set them. *)
Theorem second_initialization_fails
    DATA this0 type region schoolCode this code
    DATA' type' region' schoolCode' :
  constructor DATA this0 type region schoolCode = (this, Ok tt) ->
  to_string schoolCode = Ok code ->
  exists this',
    constructor DATA' this type' region' schoolCode'
      = (this', Err (AlreadyInitialized code)) /\
    classify (AlreadyInitialized code) = ConfigurationError /\
    this' = assign_collaborators DATA' this /\
    _eduType this' = _eduType this /\
    _region this' = _region this /\
    _schoolCode this' = Some schoolCode /\
    _initialized this' = Some (VBool true).
Proof.
  intros H Hcode. apply constructor_stores in H as [Hc Hi].
  exists (assign_collaborators DATA' this).
  unfold constructor. simpl. rewrite Hi, Hc. simpl. rewrite Hcode. simpl.
  repeat split.
Qed.

Lemma second_initialization_fails_witness :
  constructor sampleData fresh (VSym "HIGH") (VSym "SEOUL") (VStr "B100000465")
    = (sampleSchool, Ok tt) /\
  constructor sampleData sampleSchool (VSym "HIGH") (VSym "SEOUL") (VStr "X")
    = (sampleSchool, Err (AlreadyInitialized "B100000465")).
Proof.
  split; [ reflexivity | ].
  destruct (second_initialization_fails sampleData fresh (VSym "HIGH")
              (VSym "SEOUL") (VStr "B100000465") sampleSchool "B100000465"
              sampleData (VSym "HIGH") (VSym "SEOUL") (VStr "X")
              eq_refl eq_refl) as (this' & H & _ & -> & _).
  exact H.
Defined.
